(** * Greeting-Agent-ADK: the special-day lookup tool and the start-up script

    A shallow embedding of [src/greeting_agent/agent.py].

    Definitions:
    - [PyStr]      the [str] methods the script calls ([lower], [in],
                   [split], [strip]);
    - [json]       the value the search client hands back from [execute()];
    - [result], [M] exceptions, and exceptions plus an observable trace
                   (log records, console lines, outbound requests);
    - [Py]         the operations of Python on such values;
    - [Lookup]     [_search_special_days] and
                   [get_special_day_info_from_external_source];
    - [Script]     the module-level configuration check, [SpecialDayAgent]
                   and the [__main__] block.

    Facts: [PyStrFacts], [LookupFacts], [ScriptFacts], the sample inputs
    evaluated in [Samples], the claims C1 to C10, and further properties
    X1 to X15 of the lookup and of the script.

    The search provider, the agent runtime and the generative-AI library
    are outside collaborators: the provider is a function from the request
    to its outcome; the runtime is a function from the prompt to the steps
    it takes (calls of the registered tool, events it yields) and the way
    it ends; of the library the script reads members of two enumerations,
    given by their sets of names.

    Text is modelled as [string], a sequence of code points below 256; the
    character classes below are the ones CPython uses on that range. *)

From Stdlib Require Import Ascii String NArith ZArith Lia.
From Stdlib Require QArith.
From stdpp Require Import gmap strings list fin_maps.

(** ** Python [str] methods *)

Module PyStr.

Local Open Scope N_scope.

(** [c.isspace()] for one character: the code points below 256 that
    CPython classifies as whitespace. *)
Definition isspace (c : ascii) : bool :=
  let n := N_of_ascii c in
  ((9 <=? n) && (n <=? 13)) || ((28 <=? n) && (n <=? 32))
  || (n =? 133) || (n =? 160).

(** [c.lower()] for one character: A-Z, and the upper-case letters of the
    range 192-222 (215, the multiplication sign, is not a letter). *)
Definition lower_char (c : ascii) : ascii :=
  let n := N_of_ascii c in
  if ((65 <=? n) && (n <=? 90))
     || ((192 <=? n) && (n <=? 222) && negb (n =? 215))
  then ascii_of_N (n + 32) else c.

(** [s.lower()] *)
Fixpoint lower (s : string) : string :=
  match s with
  | "" => ""
  | String c s' => String (lower_char c) (lower s')
  end.

(** [sub in s] *)
Fixpoint contains (sub s : string) : bool :=
  String.prefix sub s
  || match s with
     | "" => false
     | String _ s' => contains sub s'
     end.

(** [s.split(sep)] for a non-empty [sep], scanning left to right:
    [cur] is the piece being built, [skip] the number of characters of a
    separator just matched that are still to be passed over. *)
Fixpoint split_from (sep : string) (skip : nat) (cur s : string)
  : list string :=
  match skip with
  | S k =>
      match s with
      | "" => [cur]
      | String _ s' => split_from sep k cur s'
      end
  | O =>
      if String.prefix sep s
      then cur :: match s with
                  | "" => []
                  | String _ s' =>
                      split_from sep (String.length sep - 1) "" s'
                  end
      else match s with
           | "" => [cur]
           | String c s' => split_from sep 0 (cur +:+ String c "") s'
           end
  end.

Definition split (sep s : string) : list string := split_from sep 0 "" s.

(** [s.lstrip()], [s.rstrip()], [s.strip()] *)
Fixpoint lstrip (s : string) : string :=
  match s with
  | "" => ""
  | String c s' => if isspace c then lstrip s' else s
  end.

Fixpoint rstrip (s : string) : string :=
  match s with
  | "" => ""
  | String c s' =>
      match rstrip s' with
      | "" => if isspace c then "" else String c ""
      | r => String c r
      end
  end.

Definition strip (s : string) : string := rstrip (lstrip s).

(** Reading aids for statements: the text before the first occurrence of
    [sep], and the first and last character of a string. *)
Fixpoint before_first (sep s : string) : string :=
  if String.prefix sep s then ""
  else match s with
       | "" => ""
       | String c s' => String c (before_first sep s')
       end.

Definition first_char (s : string) : option ascii :=
  match s with
  | "" => None
  | String c _ => Some c
  end.

Fixpoint last_char (s : string) : option ascii :=
  match s with
  | "" => None
  | String c "" => Some c
  | String _ s' => last_char s'
  end.

Fixpoint all_space (s : string) : bool :=
  match s with
  | "" => true
  | String c s' => isspace c && all_space s'
  end.

End PyStr.

(** ** Values, exceptions and effects *)

(** The parsed JSON body that [execute()] returns.  A [dict] is a finite
    map; a number is a rational (only whether it is zero is ever looked
    at). *)
#[warnings="-register-all"] Inductive json : Type :=
| JNull
| JBool (b : bool)
| JNum (q : QArith_base.Q)
| JStr (s : string)
| JArr (xs : list json)
| JObj (fields : gmap string json).

(** The exceptions that occur in the script.  All but [SystemExit] are
    subclasses of [Exception]. *)
Inductive exn : Type :=
| AttributeError (attr : string)
| TypeError
| KeyError (key : string)
| IndexError
| ProviderError (detail : string)
| AgentRuntimeError (detail : string)
| SystemExit (code : Z).

Definition is_Exception (e : exn) : bool :=
  match e with
  | SystemExit _ => false
  | _ => true
  end.

Inductive result (A : Type) : Type :=
| Ok (a : A)
| Raise (e : exn).

Arguments Ok {A} a.
Arguments Raise {A} e.

#[global] Instance result_ret : MRet result := @Ok.

#[global] Instance result_bind : MBind result := λ A B f r,
  match r with
  | Ok a => f a
  | Raise e => Raise e
  end.

(** A formatted message, kept as its pieces: literal text of the f-string
    and the interpolated values. *)
Inductive piece : Type :=
| Lit (s : string)
| Str (s : string)
| Repr (s : string)
| Num (n : nat)
| Exc (e : exn).

Inductive level : Type := INFO | ERROR.

(** One call of [service.cse().list(q=..., cx=..., num=...).execute()] on
    the service built by [build(api, version, developerKey=...)]. *)
Record request : Type := mkRequest {
  req_api : string;
  req_version : string;
  req_developerKey : string;
  req_q : string;
  req_cx : string;
  req_num : Z
}.

(** What the process does that can be seen from outside, in order. *)
Inductive effect : Type :=
| Log (lvl : level) (msg : list piece)
| LogException (msg : list piece) (e : exn)
| Stdout (msg : list piece)
| Send (r : request)
| ToolRegistered (name : string)
| AgentCreated (model : string)
| RunnerStarted (prompt : list piece).

Abbreviation trace := (list effect).

(** Computations that may raise and that extend the trace; the effects
    made before an exception is raised stay in the trace. *)
Definition M (A : Type) : Type := trace → result A * trace.

#[global] Instance M_ret : MRet M := λ A a tr, (Ok a, tr).

#[global] Instance M_bind : MBind M := λ A B f m tr,
  match m tr with
  | (Ok a, tr') => f a tr'
  | (Raise e, tr') => (Raise e, tr')
  end.

Definition emit (e : effect) : M unit := λ tr, (Ok tt, tr ++ [e]).

Definition raise {A} (e : exn) : M A := λ tr, (Raise e, tr).

Definition lift {A} (r : result A) : M A := λ tr, (r, tr).

(** [try: body / except Exception as e: handler e] *)
Definition try_except {A} (body : M A) (handler : exn → M A) : M A := λ tr,
  match body tr with
  | (Raise e, tr') =>
      if is_Exception e then handler e tr' else (Raise e, tr')
  | r => r
  end.

Definition logging_info (msg : list piece) : M unit := emit (Log INFO msg).
Definition logging_error (msg : list piece) : M unit := emit (Log ERROR msg).
Definition logging_exception (msg : list piece) (e : exn) : M unit :=
  emit (LogException msg e).
Definition print (msg : list piece) : M unit := emit (Stdout msg).
Definition sys_exit {A} (code : Z) : M A := raise (SystemExit code).

(** ** Python operations on JSON values *)

Module Py.

(** [bool(v)] *)
Definition truthy (v : json) : bool :=
  match v with
  | JNull => false
  | JBool b => b
  | JNum q => negb (QArith_base.Qnum q =? 0)%Z
  | JStr s => negb (String.eqb s "")
  | JArr xs => match xs with [] => false | _ => true end
  | JObj fields => negb (bool_decide (fields = ∅))
  end.

Definition is_str (k : string) (v : json) : bool :=
  match v with
  | JStr s => String.eqb k s
  | _ => false
  end.

Fixpoint chars (s : string) : list string :=
  match s with
  | "" => []
  | String c s' => String c "" :: chars s'
  end.

(** [k in v] for a [str] [k] *)
Definition member (k : string) (v : json) : result bool :=
  match v with
  | JObj fields => Ok (bool_decide (is_Some (fields !! k)))
  | JArr xs => Ok (existsb (is_str k) xs)
  | JStr s => Ok (PyStr.contains k s)
  | _ => Raise TypeError
  end.

(** [v[k]] for a [str] [k] *)
Definition getitem (v : json) (k : string) : result json :=
  match v with
  | JObj fields =>
      match fields !! k with
      | Some x => Ok x
      | None => Raise (KeyError k)
      end
  | _ => Raise TypeError
  end.

(** The elements that [for x in v] runs through. *)
Definition iter (v : json) : result (list json) :=
  match v with
  | JArr xs => Ok xs
  | JStr s => Ok (JStr <$> chars s)
  | JObj fields => Ok (JStr <$> (map_to_list fields).*1)
  | _ => Raise TypeError
  end.

(** [v.get(k)] *)
Definition get (v : json) (k : string) : result json :=
  match v with
  | JObj fields => Ok (default JNull (fields !! k))
  | _ => Raise (AttributeError "get")
  end.

(** [v.lower()] *)
Definition str_lower (v : json) : result string :=
  match v with
  | JStr s => Ok (PyStr.lower s)
  | _ => Raise (AttributeError "lower")
  end.

(** [v.split(sep)] *)
Definition str_split (v : json) (sep : string) : result (list string) :=
  match v with
  | JStr s => Ok (PyStr.split sep s)
  | _ => Raise (AttributeError "split")
  end.

(** [l[i]] on a list *)
Definition index {A} (l : list A) (i : nat) : result A :=
  match l !! i with
  | Some x => Ok x
  | None => Raise IndexError
  end.

(** A value used as a [dict] key of the result mapping.  Only a [str] gets
    this far: [lower] has been called on it. *)
Definition key (v : json) : result string :=
  match v with
  | JStr s => Ok s
  | _ => Raise TypeError
  end.

(** [for x in xs: acc = body acc x], stopping at the first exception. *)
Fixpoint for_each {A B} (body : A → B → result A) (xs : list B) (acc : A)
  : result A :=
  match xs with
  | [] => Ok acc
  | x :: xs' => acc' ← body acc x; for_each body xs' acc'
  end.

End Py.

(** ** The lookup tool *)

(** What the search provider does with a request: it answers with a JSON
    body, or the client raises (an HTTP or transport error, a subclass of
    [Exception]). *)
Inductive provider_outcome : Type :=
| Responded (body : json)
| Failed (detail : string).

Abbreviation dict := (gmap string string).

Module Lookup.

Section WithProvider.

Variable GOOGLE_CSE_API_KEY : string.
Variable GOOGLE_CSE_ID : string.
Variable provider : request → provider_outcome.

(** [service.cse().list(...).execute()]: one outbound request. *)
Definition execute (r : request) : M json :=
  emit (Send r);;
  match provider r with
  | Responded body => mret body
  | Failed detail => raise (ProviderError detail)
  end.

(** [title and snippet and ("day" in title.lower() or
    "observance" in title.lower())] *)
Definition accepts (title snippet : json) : result bool :=
  if Py.truthy title then
    if Py.truthy snippet then
      l ← Py.str_lower title;
      if PyStr.contains "day" l then Ok true
      else l' ← Py.str_lower title; Ok (PyStr.contains "observance" l')
    else Ok false
  else Ok false.

(** [snippet.split('...')[0].strip()] *)
Definition describe (snippet : json) : result string :=
  pieces ← Py.str_split snippet "...";
  first ← Py.index pieces 0;
  Ok (PyStr.strip first).

(** The body of [for item in res['items']]. *)
Definition process_item (results : dict) (item : json) : result dict :=
  title ← Py.get item "title";
  snippet ← Py.get item "snippet";
  ok ← accepts title snippet;
  if ok : bool then
    description ← describe snippet;
    k ← Py.key title;
    match results !! k with
    | None => Ok (<[k := description]> results)
    | Some _ => Ok results
    end
  else Ok results.

(** [if 'items' in res: for item in res['items']: ...], from the empty
    [results]. *)
Definition collect (res : json) : result dict :=
  has ← Py.member "items" res;
  if has : bool then
    v ← Py.getitem res "items";
    items ← Py.iter v;
    Py.for_each process_item items ∅
  else Ok ∅.

Definition search_query (date_query : string) : string :=
  "international OR world OR national day " +:+ date_query
  +:+ " official observances".

Definition _search_special_days (date_query : string) : M dict :=
  logging_info
    [Lit "Attempting to use Google Custom Search API for special days..."];;
  let q := search_query date_query in
  logging_info [Lit "search_query="; Repr q];;
  res ← execute (mkRequest "customsearch" "v1" GOOGLE_CSE_API_KEY q
                   GOOGLE_CSE_ID 5);
  results ← lift (collect res);
  logging_info [Lit "Google Custom Search API returned ";
                Num (size results); Lit " results."];;
  mret results.

Definition get_special_day_info_from_external_source (date_query : string)
  : M dict :=
  logging_info
    [Lit "TOOL CALL: 'get_special_day_info_from_external_source' called with query: '";
     Str date_query; Lit "'"];;
  results ← try_except (_search_special_days date_query)
    (λ e,
       logging_error [Lit "Error fetching special day info via tool for '";
                      Str date_query; Lit "': "; Exc e];;
       mret (∅ : dict));
  mret results.

End WithProvider.

(** The requests among the effects of a trace. *)
Definition requests (tr : trace) : list request :=
  omap (λ e, match e with Send r => Some r | _ => None end) tr.

(** The log records of level [ERROR] among the effects of a trace. *)
Definition errors_logged (tr : trace) : list (list piece) :=
  omap (λ e, match e with Log ERROR msg => Some msg | _ => None end) tr.

End Lookup.

(** ** The script: configuration check, agent, main block *)

(** The line feed that starts three of the console lines. *)
Definition nl : string := String "010"%char "".

(** An event yielded by [runner.run(prompt)].  A payload attribute that the
    event does not carry is [None]. *)
Record event : Type := mkEvent {
  ev_type : string;
  ev_tool_code : option (string * string);
  ev_tool_response : option string;
  ev_agent_response : option string;
  ev_error : option string
}.

(** How the generator ends once its events are used up: it is exhausted, or
    the agent runtime raises (a subclass of [Exception]). *)
Inductive ending : Type :=
| Exhausted
| Raises (detail : string).

(** What the agent runtime does while [runner.run(prompt)] is iterated,
    step by step: it calls the tool it was given with a date query, or it
    yields an event. *)
Inductive step : Type :=
| Calls (date_query : string)
| Yields (ev : event).

Record generator : Type := mkGenerator {
  steps : list step;
  at_end : ending
}.

(** How the process ends. *)
Inductive termination : Type :=
| Exited (status : Z)
| Crashed (e : exn).

Module Script.

Section WithWorld.

(** The environment after [load_dotenv()], the clock read through
    [strftime], the search provider, the member names of the two
    enumerations imported from the generative-AI library, and the agent
    runtime. *)
Variable environ : gmap string string.
Variable strftime_today : string → string.
Variable provider : request → provider_outcome.
Variable HarmCategory : gset string.
Variable HarmBlockThreshold : gset string.
Variable runner_run : list piece → generator.

Definition getenv (name : string) : option string := environ !! name.

(** [bool(v)] for a value that is [None] or a [str] *)
Definition is_set (v : option string) : bool :=
  match v with
  | None => false
  | Some s => negb (String.eqb s "")
  end.

(** [event.attr.field] on a payload *)
Definition attr {A} (name : string) (payload : option A) : M A :=
  match payload with
  | Some a => mret a
  | None => raise (AttributeError name)
  end.

(** The module level up to the definitions: read the two variables and
    stop if one is missing. *)
Definition configuration_check : M unit :=
  let GOOGLE_CSE_API_KEY := getenv "GOOGLE_CSE_API_KEY" in
  let GOOGLE_CSE_ID := getenv "GOOGLE_CSE_ID" in
  if negb (is_set GOOGLE_CSE_API_KEY) || negb (is_set GOOGLE_CSE_ID) then
    logging_error
      [Lit "Missing GOOGLE_CSE_API_KEY or GOOGLE_CSE_ID in your .env file. Please ensure these are set for the Google Custom Search tool to function."];;
    sys_exit 1
  else mret tt.

(** [special_day_search_tool = FunctionTool(...)] at module level. *)
Definition register_tool : M unit :=
  emit (ToolRegistered "get_special_day_info_from_external_source").

(** The registered tool: the lookup with the two module-level values.  It
    runs after the configuration check only, when both are set. *)
Definition special_day_search_tool (date_query : string) : M dict :=
  Lookup.get_special_day_info_from_external_source
    (default "" (getenv "GOOGLE_CSE_API_KEY"))
    (default "" (getenv "GOOGLE_CSE_ID")) provider date_query.

(** [cls.name] on an enumeration class *)
Definition getattr (cls : gset string) (name : string) : M unit :=
  if bool_decide (name ∈ cls) then mret tt else raise (AttributeError name).

(** [SpecialDayAgent(model_name)]: the arguments of [LlmAgent(...)] are
    evaluated in order, the keys and values of the [safety_settings]
    dictionary among them, then the [LlmAgent] and its [Runner] are built.
    The two constructors of the framework are taken to succeed. *)
Definition SpecialDayAgent (model_name : string) : M unit :=
  getattr HarmCategory "HARM_CATEGORY_HARASSMENT";;
  getattr HarmBlockThreshold "BLOCK_NONE";;
  getattr HarmCategory "HARMS_CATEGORY_HATE_SPEECH";;
  getattr HarmBlockThreshold "BLOCK_NONE";;
  getattr HarmCategory "HARMS_CATEGORY_SEXUALLY_EXPLICIT";;
  getattr HarmBlockThreshold "BLOCK_NONE";;
  getattr HarmCategory "HARMS_CATEGORY_DANGEROUS_CONTENT";;
  getattr HarmBlockThreshold "BLOCK_NONE";;
  emit (AgentCreated model_name).

(** One turn of the [for event in ...] body; [true] stands for [break]. *)
Definition on_event (ev : event) : M bool :=
  if String.eqb (ev_type ev) "tool_code" then
    tc ← attr "tool_name" (ev_tool_code ev);
    logging_info [Lit "ADK Event: Agent called tool: "; Str tc.1;
                  Lit " with args: "; Str tc.2];;
    print [Lit "DEBUG: Agent decided to use tool: "; Str tc.1;
           Lit " with arguments "; Str tc.2];;
    mret false
  else if String.eqb (ev_type ev) "tool_response" then
    out ← attr "output" (ev_tool_response ev);
    logging_info [Lit "ADK Event: Tool response: "; Str out];;
    print [Lit "DEBUG: Tool returned: "; Str out];;
    mret false
  else if String.eqb (ev_type ev) "agent_response" then
    print [Lit (nl +:+ "--- Agent's Final Output ---")];;
    text ← attr "text" (ev_agent_response ev);
    print [Str text];;
    mret true
  else if String.eqb (ev_type ev) "error" then
    message ← attr "message" (ev_error ev);
    logging_error [Lit "ADK Event: An error occurred during agent execution: ";
                   Str message];;
    print [Lit "Agent encountered an error: "; Str message];;
    mret true
  else mret false.

(** [for event in self.runner.run(initial_prompt): ...]: the runtime is
    resumed for its next event and makes its tool calls on the way; after
    a [break] it is not resumed. *)
Fixpoint for_events (sts : list step) (e : ending) : M unit :=
  match sts with
  | [] =>
      match e with
      | Exhausted => mret tt
      | Raises detail => raise (AgentRuntimeError detail)
      end
  | Calls date_query :: sts' =>
      special_day_search_tool date_query;;
      for_events sts' e
  | Yields ev :: sts' =>
      stop ← on_event ev;
      if stop : bool then mret tt else for_events sts' e
  end.

Definition run_loop (initial_prompt : list piece) : M unit :=
  emit (RunnerStarted initial_prompt);;
  let g := runner_run initial_prompt in
  for_events (steps g) (at_end g).

Definition initial_prompt : list piece :=
  let current_date_formatted := strftime_today "%B %d" in
  [Lit "Hello! Today's full date is "; Str (strftime_today "%B %d, %Y");
   Lit ". The current 'Month Day' for tool queries is '";
   Str current_date_formatted;
   Lit "'. Please check for special or international days and generate greetings."].

Definition run_daily_check : M unit :=
  print [Lit (nl +:+ "--- Running ADK Special Day Agent for ");
         Str (strftime_today "%B %d, %Y"); Lit " ---"];;
  logging_info (Lit "Agent's initial prompt: " :: initial_prompt);;
  try_except (run_loop initial_prompt)
    (λ e,
       logging_exception [Lit "Unhandled error during ADK agent run."] e;;
       print [Lit "An unhandled error occurred during ADK agent run: "; Exc e]).

(** The module from top to bottom; [is_main] is [__name__ == "__main__"]. *)
Definition module (is_main : bool) : M unit :=
  configuration_check;;
  register_tool;;
  if is_main then
    SpecialDayAgent "gemini-pro";;
    run_daily_check;;
    print [Lit (nl +:+ "--- ADK Agent execution complete. ---")]
  else mret tt.

(** Running the module as a process: an uncaught [SystemExit] ends it with
    its status, any other uncaught exception is a crash. *)
Definition run_process (is_main : bool) : termination * trace :=
  match module is_main [] with
  | (Ok _, tr) => (Exited 0, tr)
  | (Raise (SystemExit code), tr) => (Exited code, tr)
  | (Raise e, tr) => (Crashed e, tr)
  end.

End WithWorld.

Definition exit_status (t : termination) : Z :=
  match t with
  | Exited status => status
  | Crashed _ => 1
  end.

(** Effects that belong to the agent or to the network. *)
Definition agent_or_network (e : effect) : bool :=
  match e with
  | Send _ | ToolRegistered _ | AgentCreated _ | RunnerStarted _ => true
  | _ => false
  end.

End Script.

(** ** Notions of the specification

    Used in the statements below; none of them is used by the code
    above. *)

(** [p] is the text of [s] up to its first occurrence of [sep]: all of [s]
    when [sep] does not occur, and otherwise the shortest [p] with
    [s = p sep rest]. *)
Definition text_before_first (sep s p : string) : Prop :=
  (PyStr.contains sep s = false ∧ p = s)
  ∨ (∃ rest, s = p +:+ sep +:+ rest
       ∧ ∀ a b, s = a +:+ sep +:+ b → String.length p ≤ String.length a).

(** [m] is [x] without its surrounding whitespace. *)
Definition trimmed_of (x m : string) : Prop :=
  (∃ l r, x = l +:+ m +:+ r
     ∧ PyStr.all_space l = true ∧ PyStr.all_space r = true)
  ∧ (∀ c, PyStr.first_char m = Some c → PyStr.isspace c = false)
  ∧ (∀ c, PyStr.last_char m = Some c → PyStr.isspace c = false).

(** [d] is the description derived from the snippet [s]. *)
Definition description_of (s d : string) : Prop :=
  ∃ p, text_before_first "..." s p ∧ trimmed_of p d.

(** [t] contains [sub] when case is ignored: some stretch of [t] is [sub]
    once put in lower case. *)
Definition contains_ignoring_case (sub t : string) : Prop :=
  ∃ a w b, t = a +:+ w +:+ b ∧ PyStr.lower w = sub.

(** The items of a provider response: the elements of its "items" field,
    none when the field is missing. *)
Definition items_of (body : json) : list json :=
  match body with
  | JObj fields =>
      match fields !! "items" with
      | Some v =>
          match Py.iter v with
          | Ok xs => xs
          | Raise _ => []
          end
      | None => []
      end
  | _ => []
  end.

Definition has_field (k : string) (v : json) : bool :=
  match v with
  | JObj fields => bool_decide (is_Some (fields !! k))
  | _ => false
  end.

(** An item is accepted when it has a non-empty text title and a non-empty
    text snippet and the title, in lower case, contains "day" or
    "observance"; the result is its title and snippet. *)
Definition accepted (item : json) : option (string * string) :=
  match item with
  | JObj fields =>
      match fields !! "title", fields !! "snippet" with
      | Some (JStr t), Some (JStr s) =>
          if negb (String.eqb t "") && negb (String.eqb s "")
             && (PyStr.contains "day" (PyStr.lower t)
                 || PyStr.contains "observance" (PyStr.lower t))
          then Some (t, s) else None
      | _, _ => None
      end
  | _ => None
  end.

(** The one request of a lookup for [date_query]. *)
Definition lookup_request (key cx date_query : string) : request :=
  mkRequest "customsearch" "v1" key
    ("international OR world OR national day " +:+ date_query
     +:+ " official observances")
    cx 5.

(** The mapping a lookup hands back for a given provider outcome: what the
    loop collects from the response, and nothing when the provider fails or
    the response cannot be processed. *)
Definition found (o : provider_outcome) : dict :=
  match o with
  | Responded body =>
      match Lookup.collect body with
      | Ok results => results
      | Raise _ => ∅
      end
  | Failed _ => ∅
  end.

(** An item as the provider documents it: an object whose title and
    snippet, where present, are text or null. *)
Definition text_or_absent (v : option json) : bool :=
  match v with
  | None | Some JNull | Some (JStr _) => true
  | _ => false
  end.

Definition well_formed_item (x : json) : bool :=
  match x with
  | JObj fields =>
      text_or_absent (fields !! "title")
      && text_or_absent (fields !! "snippet")
  | _ => false
  end.

(** ** Sample inputs *)

Definition item (title snippet : string) : json :=
  JObj {[ "title" := JStr title; "snippet" := JStr snippet ]}.

Definition response (items : list json) : json :=
  JObj {[ "items" := JArr items ]}.

Definition answering (body : json) : request → provider_outcome :=
  λ _, Responded body.

Definition failing (detail : string) : request → provider_outcome :=
  λ _, Failed detail.

Definition sample_response : json :=
  response [item "International Day of X" "A day for X... more text"].

Definition mixed_response : json :=
  response [item "Something else" "zzz";
            item "World Day" "  first... a";
            item "World Day" "second";
            item "OBSERVANCE list" "hello "].

Definition error_response : json :=
  JObj {[ "kind" := JStr "customsearch#search" ]}.

(** ** Notions for the further properties *)

(** A title passes the word test of the loop. *)
Definition relevant (t : string) : bool :=
  PyStr.contains "day" (PyStr.lower t)
  || PyStr.contains "observance" (PyStr.lower t).

Definition is_text (v : json) : bool :=
  match v with
  | JStr _ => true
  | _ => false
  end.

(** The items on which a turn of the loop raises: a value that is not an
    object; an object with a truthy title and a truthy snippet whose title
    is not text; one whose title passes the word test and whose snippet is
    not text. *)
Definition malformed (x : json) : bool :=
  match x with
  | JObj fields =>
      let title := default JNull (fields !! "title") in
      let snippet := default JNull (fields !! "snippet") in
      Py.truthy title && Py.truthy snippet
      && match title with
         | JStr t => relevant t && negb (is_text snippet)
         | _ => true
         end
  | _ => true
  end.

(** The title and description of every accepted item, in response order. *)
Fixpoint entries (items : list json) : list (string * string) :=
  match items with
  | [] => []
  | x :: items' =>
      match accepted x with
      | Some (t, s) =>
          (t, PyStr.strip (PyStr.before_first "..." s)) :: entries items'
      | None => entries items'
      end
  end.

(** The exceptions that [_search_special_days] can raise. *)
Definition lookup_exception (e : exn) : bool :=
  match e with
  | ProviderError _ | TypeError => true
  | AttributeError attr =>
      String.eqb attr "get" || String.eqb attr "lower"
      || String.eqb attr "split"
  | _ => false
  end.

(** The event types that [run_daily_check] looks for. *)
Definition known_type (ty : string) : bool :=
  String.eqb ty "tool_code" || String.eqb ty "tool_response"
  || String.eqb ty "agent_response" || String.eqb ty "error".

(** An event that ends the loop: a final response or an error, with its
    payload. *)
Definition final_event (ev : event) : bool :=
  (String.eqb (ev_type ev) "agent_response"
   && bool_decide (is_Some (ev_agent_response ev)))
  || (String.eqb (ev_type ev) "error"
      && bool_decide (is_Some (ev_error ev))).

Definition configured : gmap string string :=
  {[ "GOOGLE_CSE_API_KEY" := "secret"; "GOOGLE_CSE_ID" := "engine" ]}.

(** The members of the two enumerations as the generative-AI library
    declares them; no name begins with "HARMS_". *)
Definition library_HarmCategory : gset string :=
  {[ "HARM_CATEGORY_UNSPECIFIED"; "HARM_CATEGORY_HARASSMENT";
     "HARM_CATEGORY_HATE_SPEECH"; "HARM_CATEGORY_SEXUALLY_EXPLICIT";
     "HARM_CATEGORY_DANGEROUS_CONTENT" ]}.

Definition library_HarmBlockThreshold : gset string :=
  {[ "HARM_BLOCK_THRESHOLD_UNSPECIFIED"; "BLOCK_LOW_AND_ABOVE";
     "BLOCK_MEDIUM_AND_ABOVE"; "BLOCK_ONLY_HIGH"; "BLOCK_NONE" ]}.

(** The names that [SpecialDayAgent] reads from the two enumerations. *)
Definition names_read : list string :=
  ["HARM_CATEGORY_HARASSMENT"; "BLOCK_NONE"; "HARMS_CATEGORY_HATE_SPEECH";
   "HARMS_CATEGORY_SEXUALLY_EXPLICIT"; "HARMS_CATEGORY_DANGEROUS_CONTENT"].

(** The effects of the daily check once the runner is started: log
    records, console lines, and the requests of the lookups that the
    runtime asks for, with the configured key and engine. *)
Definition lookup_effect (key cx : string) (e : effect) : Prop :=
  match e with
  | Log _ _ | LogException _ _ | Stdout _ => True
  | Send r => ∃ date_query, r = lookup_request key cx date_query
  | _ => False
  end.

Definition final_response (text : string) : event :=
  mkEvent "agent_response" None None (Some text) None.

Definition no_events : list piece → generator :=
  λ _, mkGenerator [] Exhausted.

(** * Facts *)

(** ** Strings *)

Module PyStrFacts.

Import PyStr.

Lemma append_cons (c : ascii) (a b : string) :
  String c a +:+ b = String c (a +:+ b).
Proof. reflexivity. Qed.

Lemma append_nil_r (a : string) : a +:+ "" = a.
Proof.
  induction a as [|c a IH]; [reflexivity|].
  rewrite append_cons, IH. reflexivity.
Qed.

Lemma append_assoc (a b c : string) : (a +:+ b) +:+ c = a +:+ (b +:+ c).
Proof.
  induction a as [|x a IH]; [reflexivity|].
  rewrite !append_cons, IH. reflexivity.
Qed.

Lemma length_append (a b : string) :
  String.length (a +:+ b) = String.length a + String.length b.
Proof.
  induction a as [|x a IH]; [reflexivity|].
  rewrite append_cons. simpl. rewrite IH. reflexivity.
Qed.

Lemma prefix_nil (s : string) : String.prefix "" s = true.
Proof. destruct s; reflexivity. Qed.

Lemma prefix_cons (a b : ascii) (s1 s2 : string) :
  String.prefix (String a s1) (String b s2)
  = bool_decide (a = b) && String.prefix s1 s2.
Proof.
  simpl. destruct (ascii_dec a b) as [->|Hne].
  - rewrite bool_decide_eq_true_2 by reflexivity. reflexivity.
  - rewrite bool_decide_eq_false_2 by assumption. reflexivity.
Qed.

Lemma prefix_spec (a s : string) :
  String.prefix a s = true ↔ ∃ r, s = a +:+ r.
Proof.
  revert s. induction a as [|x a IH]; intros s.
  - rewrite prefix_nil. split; [intros _; exists s; reflexivity|reflexivity].
  - destruct s as [|y s].
    + simpl. split; [discriminate|]. intros [r Hr]. discriminate.
    + rewrite prefix_cons, andb_true_iff, bool_decide_eq_true, IH.
      split.
      * intros [-> [r ->]]. exists r. reflexivity.
      * intros [r Hr]. rewrite append_cons in Hr. injection Hr as -> ->.
        split; [reflexivity|]. exists r. reflexivity.
Qed.

Lemma contains_unfold (sub s : string) :
  contains sub s
  = String.prefix sub s
    || match s with "" => false | String _ s' => contains sub s' end.
Proof. destruct s; reflexivity. Qed.

Lemma contains_spec (sub s : string) :
  contains sub s = true ↔ ∃ a b, s = a +:+ sub +:+ b.
Proof.
  induction s as [|c s IH].
  - rewrite contains_unfold, orb_false_r, prefix_spec. split.
    + intros [r Hr]. exists "", r. exact Hr.
    + intros [a [b Hab]]. destruct a; [|discriminate].
      exists b. exact Hab.
  - rewrite contains_unfold, orb_true_iff, prefix_spec, IH. split.
    + intros [[r Hr]|[a [b Hab]]].
      * exists "", r. exact Hr.
      * exists (String c a), b. rewrite append_cons, Hab. reflexivity.
    + intros [a [b Hab]]. destruct a as [|x a].
      * left. exists b. exact Hab.
      * right. rewrite append_cons in Hab. injection Hab as -> ->.
        exists a, b. reflexivity.
Qed.

Lemma contains_false_app (sub a b c : string) :
  contains sub (a +:+ b +:+ c) = false → contains sub b = false.
Proof.
  intros H. destruct (contains sub b) eqn:Hb; [|reflexivity].
  apply contains_spec in Hb as [x [y ->]].
  rewrite <- H. symmetry. apply contains_spec.
  exists (a +:+ x), (y +:+ c). rewrite !append_assoc. reflexivity.
Qed.

Lemma before_first_unfold (sep s : string) :
  before_first sep s
  = if String.prefix sep s then ""
    else match s with
         | "" => ""
         | String c s' => String c (before_first sep s')
         end.
Proof. destruct s; reflexivity. Qed.

Lemma before_first_absent (sep s : string) :
  contains sep s = false → before_first sep s = s.
Proof.
  induction s as [|c s IH]; rewrite contains_unfold, before_first_unfold;
    intros [Hp Hc]%orb_false_iff; rewrite Hp; [reflexivity|].
  rewrite IH by exact Hc. reflexivity.
Qed.

Lemma before_first_prefix (sep s : string) :
  ∃ tail, s = before_first sep s +:+ tail.
Proof.
  induction s as [|c s [tail IH]]; rewrite before_first_unfold;
    destruct (String.prefix sep _); try (eexists; reflexivity).
  exists tail. rewrite append_cons, <- IH. reflexivity.
Qed.

Lemma before_first_present (sep s : string) :
  contains sep s = true → ∃ rest, s = before_first sep s +:+ sep +:+ rest.
Proof.
  induction s as [|c s IH]; rewrite contains_unfold, before_first_unfold;
    destruct (String.prefix sep _) eqn:Hp.
  - intros _. apply prefix_spec in Hp. exact Hp.
  - discriminate.
  - intros _. apply prefix_spec in Hp. exact Hp.
  - simpl. intros [rest Hrest]%IH. exists rest.
    rewrite append_cons, <- Hrest. reflexivity.
Qed.

Lemma before_first_least (sep s a b : string) :
  s = a +:+ sep +:+ b → String.length (before_first sep s) ≤ String.length a.
Proof.
  revert a. induction s as [|c s IH]; intros a Hs;
    rewrite before_first_unfold; destruct (String.prefix sep _) eqn:Hp;
    simpl; try lia.
  destruct a as [|x a].
  - assert (String.prefix sep (String c s) = true) as Hp'
      by (apply prefix_spec; exists b; exact Hs).
    congruence.
  - rewrite append_cons in Hs. injection Hs as -> Hs.
    specialize (IH a Hs). simpl. lia.
Qed.

Lemma text_before_first_holds (sep s : string) :
  text_before_first sep s (before_first sep s).
Proof.
  destruct (contains sep s) eqn:Hc.
  - right. destruct (before_first_present sep s Hc) as [rest Hrest].
    exists rest. split; [exact Hrest|].
    intros a b Hab. exact (before_first_least sep s a b Hab).
  - left. split; [exact Hc|]. apply before_first_absent. exact Hc.
Qed.

Lemma before_first_free (sep s : string) :
  sep ≠ "" → contains sep (before_first sep s) = false.
Proof.
  intros Hsep. destruct (contains sep (before_first sep s)) eqn:Hc;
    [|reflexivity].
  apply contains_spec in Hc as [x [y Hxy]].
  destruct (before_first_prefix sep s) as [tail Htail].
  assert (s = x +:+ sep +:+ (y +:+ tail)) as Hs.
  { rewrite Htail at 1. rewrite Hxy, !append_assoc. reflexivity. }
  apply before_first_least in Hs.
  rewrite Hxy, !length_append in Hs.
  destruct sep as [|c sep]; [congruence|]. simpl in Hs. lia.
Qed.

Lemma split_from_0 (sep cur s : string) :
  split_from sep 0 cur s
  = if String.prefix sep s
    then cur :: match s with
                | "" => []
                | String _ s' => split_from sep (String.length sep - 1) "" s'
                end
    else match s with
         | "" => [cur]
         | String c s' => split_from sep 0 (cur +:+ String c "") s'
         end.
Proof. destruct s; reflexivity. Qed.

Lemma split_from_head (sep cur s : string) :
  split_from sep 0 cur s !! 0%nat = Some (cur +:+ before_first sep s).
Proof.
  revert cur. induction s as [|c s IH]; intros cur;
    rewrite before_first_unfold, split_from_0;
    destruct (String.prefix sep _); rewrite ?append_nil_r; try reflexivity.
  rewrite IH, append_assoc. reflexivity.
Qed.

Lemma split_head (sep s : string) :
  split sep s !! 0%nat = Some (before_first sep s).
Proof. unfold split. rewrite split_from_head. reflexivity. Qed.

(** *** [strip] *)

Lemma lstrip_decompose (s : string) :
  ∃ l, s = l +:+ lstrip s ∧ all_space l = true.
Proof.
  induction s as [|c s [l [IH Hl]]].
  - exists "". split; reflexivity.
  - simpl. destruct (isspace c) eqn:Hc.
    + exists (String c l). rewrite append_cons, <- IH. simpl. rewrite Hc, Hl.
      split; reflexivity.
    + exists "". split; reflexivity.
Qed.

Lemma lstrip_first (s : string) (c : ascii) :
  first_char (lstrip s) = Some c → isspace c = false.
Proof.
  induction s as [|x s IH]; simpl; [discriminate|].
  destruct (isspace x) eqn:Hx; [exact IH|].
  simpl. intros [= <-]. exact Hx.
Qed.

Lemma rstrip_unfold (c : ascii) (s : string) :
  rstrip (String c s)
  = match rstrip s with
    | "" => if isspace c then "" else String c ""
    | r => String c r
    end.
Proof. reflexivity. Qed.

Lemma rstrip_decompose (s : string) :
  ∃ r, s = rstrip s +:+ r ∧ all_space r = true.
Proof.
  induction s as [|c s [r [IH Hr]]].
  - exists "". split; reflexivity.
  - rewrite rstrip_unfold. destruct (rstrip s) as [|y t] eqn:Hrs.
    + destruct (isspace c) eqn:Hc.
      * exists (String c s). split; [reflexivity|].
        simpl. rewrite Hc. simpl. rewrite IH. exact Hr.
      * exists s. split; [reflexivity|]. rewrite IH. exact Hr.
    + exists r. split; [|exact Hr].
      rewrite append_cons, <- IH. reflexivity.
Qed.

Lemma rstrip_last (s : string) (c : ascii) :
  last_char (rstrip s) = Some c → isspace c = false.
Proof.
  induction s as [|x s IH]; [discriminate|].
  rewrite rstrip_unfold. destruct (rstrip s) as [|y t] eqn:Hrs.
  - destruct (isspace x) eqn:Hx; [discriminate|].
    simpl. intros [= <-]. exact Hx.
  - exact IH.
Qed.

Lemma rstrip_first (s : string) (c : ascii) :
  first_char (rstrip s) = Some c → first_char s = Some c.
Proof.
  destruct s as [|x s]; [discriminate|].
  rewrite rstrip_unfold. destruct (rstrip s); [destruct (isspace x)|];
    simpl; congruence.
Qed.

Lemma strip_trimmed (x : string) : trimmed_of x (strip x).
Proof.
  unfold trimmed_of, strip. split; [|split].
  - destruct (lstrip_decompose x) as [l [Hl Hls]].
    destruct (rstrip_decompose (lstrip x)) as [r [Hr Hrs]].
    exists l, r. split; [|split; assumption].
    rewrite <- Hr. exact Hl.
  - intros c Hc. apply rstrip_first in Hc. exact (lstrip_first x c Hc).
  - intros c Hc. exact (rstrip_last _ c Hc).
Qed.

Lemma strip_contains (sub x : string) :
  contains sub x = false → contains sub (strip x) = false.
Proof.
  destruct (strip_trimmed x) as [[l [r [Hx _]]] _].
  intros H. rewrite Hx in H. exact (contains_false_app sub l _ r H).
Qed.

(** *** [lower] *)

Lemma lower_app (a b : string) : lower (a +:+ b) = lower a +:+ lower b.
Proof.
  induction a as [|c a IH]; [reflexivity|].
  rewrite append_cons. simpl. rewrite IH. reflexivity.
Qed.

Lemma lower_app_inv (t x y : string) :
  lower t = x +:+ y → ∃ t1 t2, t = t1 +:+ t2 ∧ lower t1 = x ∧ lower t2 = y.
Proof.
  revert t. induction x as [|c x IH]; intros t Ht.
  - exists "", t. auto.
  - destruct t as [|d t]; [discriminate|].
    rewrite append_cons in Ht. simpl in Ht. injection Ht as Hc Ht.
    destruct (IH t Ht) as [t1 [t2 [-> [H1 H2]]]].
    exists (String d t1), t2. simpl. rewrite Hc, H1. auto.
Qed.

Lemma contains_lower_spec (sub t : string) :
  contains sub (lower t) = true ↔ contains_ignoring_case sub t.
Proof.
  rewrite contains_spec. unfold contains_ignoring_case. split.
  - intros [x [y Hxy]].
    apply lower_app_inv in Hxy as [a [t2 [-> [_ H2]]]].
    apply lower_app_inv in H2 as [w [b [-> [Hw _]]]].
    exists a, w, b. auto.
  - intros [a [w [b [-> Hw]]]]. exists (lower a), (lower b).
    rewrite !lower_app, Hw. reflexivity.
Qed.

(** *** The two descriptions in words pick out one string each *)

Lemma append_same_length (a x b y : string) :
  a +:+ x = b +:+ y → String.length a = String.length b → a = b.
Proof.
  revert b. induction a as [|c a IH]; intros [|d b]; try discriminate; auto.
  rewrite !append_cons. intros [= -> Hab] [= Hlen].
  rewrite (IH b Hab Hlen). reflexivity.
Qed.

Lemma text_before_first_unique (sep s p : string) :
  text_before_first sep s p → p = before_first sep s.
Proof.
  intros [[Habs ->]|[rest [Hs Hleast]]].
  - symmetry. apply before_first_absent. exact Habs.
  - assert (contains sep s = true) as Hc
      by (apply contains_spec; exists p, rest; exact Hs).
    destruct (before_first_present sep s Hc) as [rest' Hs'].
    apply (append_same_length p (sep +:+ rest) _ (sep +:+ rest')).
    + rewrite <- Hs. exact Hs'.
    + apply Nat.le_antisymm.
      * exact (Hleast _ _ Hs').
      * exact (before_first_least sep s p rest Hs).
Qed.

Lemma lstrip_all_space (l m : string) :
  all_space l = true → lstrip (l +:+ m) = lstrip m.
Proof.
  induction l as [|c l IH]; [reflexivity|].
  rewrite append_cons. simpl. intros [Hc Hl]%andb_true_iff.
  rewrite Hc. exact (IH Hl).
Qed.

Lemma rstrip_app_space (m r : string) :
  all_space r = true → rstrip (m +:+ r) = rstrip m.
Proof.
  intros Hr. induction m as [|c m IH].
  - change ("" +:+ r) with r. induction r as [|x r IHr]; [reflexivity|].
    simpl in Hr. apply andb_true_iff in Hr as [Hx Hr].
    rewrite rstrip_unfold, (IHr Hr), Hx. reflexivity.
  - rewrite append_cons, !rstrip_unfold, IH. reflexivity.
Qed.

Lemma rstrip_id (m : string) :
  (∀ c, last_char m = Some c → isspace c = false) → rstrip m = m.
Proof.
  induction m as [|c m IH]; [reflexivity|]. intros Hlast.
  rewrite rstrip_unfold. destruct m as [|y m].
  - simpl. rewrite (Hlast c) by reflexivity. reflexivity.
  - rewrite IH; [reflexivity|]. intros x Hx. apply Hlast. exact Hx.
Qed.

Lemma trimmed_of_unique (x m : string) : trimmed_of x m → m = strip x.
Proof.
  intros [[l [r [-> [Hl Hr]]]] [Hfirst Hlast]]. unfold strip.
  rewrite (lstrip_all_space l _ Hl).
  destruct m as [|c m].
  - change ("" +:+ r) with r.
    rewrite <- (append_nil_r r), (lstrip_all_space r "" Hr). reflexivity.
  - rewrite append_cons. simpl lstrip. rewrite (Hfirst c) by reflexivity.
    rewrite <- append_cons, (rstrip_app_space _ r Hr).
    symmetry. apply rstrip_id. exact Hlast.
Qed.

Lemma description_of_iff (s d : string) :
  description_of s d ↔ d = strip (before_first "..." s).
Proof.
  split.
  - intros [p [Hp Hd]]. apply text_before_first_unique in Hp as ->.
    apply trimmed_of_unique. exact Hd.
  - intros ->. exists (before_first "..." s).
    split; [apply text_before_first_holds|apply strip_trimmed].
Qed.

End PyStrFacts.

(** ** The loop over the items *)

Module LookupFacts.

Import PyStr PyStrFacts.

Lemma index_split (sep s : string) :
  Py.index (split sep s) 0 = Ok (before_first sep s).
Proof. unfold Py.index. rewrite split_head. reflexivity. Qed.

Lemma describe_str (s : string) :
  Lookup.describe (JStr s) = Ok (strip (before_first "..." s)).
Proof. unfold Lookup.describe. cbn. rewrite index_split. reflexivity. Qed.

(** What one turn of the loop does to the mapping when it does not raise:
    an accepted item adds its entry unless its title is already a key, any
    other item changes nothing. *)
Lemma process_item_Ok (results results' : dict) (item : json) :
  Lookup.process_item results item = Ok results' →
  match accepted item with
  | Some (t, s) =>
      results' = match results !! t with
                 | None => <[t := strip (before_first "..." s)]> results
                 | Some _ => results
                 end
  | None => results' = results
  end.
Proof.
  unfold Lookup.process_item, accepted.
  destruct item as [| | | |?|fields]; try discriminate.
  unfold Py.get. cbn.
  destruct (fields !! "title") as [[| b | q | t | xs | m]|];
    destruct (fields !! "snippet") as [[| b' | q' | s | xs' | m']|];
    unfold Lookup.accepts, Py.truthy, Py.str_lower; cbn.
  all: try (destruct (String.eqb t "")); try (destruct (String.eqb s ""));
    try (destruct (contains "day" (lower t)));
    try (destruct (contains "observance" (lower t))); cbn.
  all: rewrite ?index_split; cbn.
  all: intros H;
    repeat (match type of H with
            | context [if ?c then _ else _] => destruct c
            | context [match ?c with [] => _ | _ => _ end] => destruct c
            end; cbn in H);
    try discriminate; try (injection H as <-; reflexivity).
Qed.

(** An item that is not accepted never changes the mapping. *)
Lemma process_item_rejected (results results' : dict) (item : json) :
  accepted item = None →
  Lookup.process_item results item = Ok results' → results' = results.
Proof.
  intros Hrej H. apply process_item_Ok in H. rewrite Hrej in H. exact H.
Qed.

(** An accepted item is processed without an exception. *)
Lemma process_item_accepted (results : dict) (item : json) (t s : string) :
  accepted item = Some (t, s) →
  Lookup.process_item results item
  = Ok match results !! t with
       | None => <[t := strip (before_first "..." s)]> results
       | Some _ => results
       end.
Proof.
  unfold Lookup.process_item, accepted.
  destruct item as [| | | |?|fields]; try discriminate.
  unfold Py.get. cbn.
  destruct (fields !! "title") as [[| | | t' | |]|]; try discriminate.
  destruct (fields !! "snippet") as [[| | | s' | |]|]; try discriminate.
  unfold Lookup.accepts, Py.truthy, Py.str_lower. cbn.
  destruct (String.eqb t' ""), (String.eqb s' ""),
    (contains "day" (lower t')), (contains "observance" (lower t')); cbn;
    try discriminate.
  all: intros [= <- <-]; rewrite index_split; cbn.
  all: destruct (results !! t'); reflexivity.
Qed.

(** Every exception of one turn of the loop is a subclass of
    [Exception]. *)
Lemma process_item_Raise (results : dict) (item : json) (e : exn) :
  Lookup.process_item results item = Raise e → is_Exception e = true.
Proof.
  unfold Lookup.process_item.
  destruct item as [| | | |?|fields]; try (intros [= <-]; reflexivity).
  unfold Py.get. cbn.
  destruct (fields !! "title") as [[| b | q | t | xs | m]|];
    destruct (fields !! "snippet") as [[| b' | q' | s | xs' | m']|];
    unfold Lookup.accepts, Py.truthy, Py.str_lower; cbn.
  all: rewrite ?index_split; cbn.
  all: intros H;
    repeat (match type of H with
            | context [if ?c then _ else _] => destruct c
            | context [match ?c with [] => _ | _ => _ end] => destruct c
            end; cbn in H);
    try discriminate; try (injection H as <-; reflexivity).
Qed.

Lemma process_item_keeps (results results' : dict) (item : json)
    (t d : string) :
  Lookup.process_item results item = Ok results' →
  results !! t = Some d → results' !! t = Some d.
Proof.
  intros H Ht. apply process_item_Ok in H.
  destruct (accepted item) as [[t' s']|]; [|subst; exact Ht].
  destruct (results !! t') eqn:Ht'; subst; [exact Ht|].
  rewrite lookup_insert_ne; [exact Ht|]. intros ->. congruence.
Qed.

Lemma for_each_cons {A B} (body : A → B → result A) (x : B) (xs : list B)
    (acc : A) :
  Py.for_each body (x :: xs) acc = body acc x ≫= Py.for_each body xs.
Proof. reflexivity. Qed.

Lemma for_each_keeps (items : list json) (acc res : dict) (t d : string) :
  Py.for_each Lookup.process_item items acc = Ok res →
  acc !! t = Some d → res !! t = Some d.
Proof.
  revert acc. induction items as [|x items IH]; intros acc.
  - intros [= <-]. auto.
  - rewrite for_each_cons.
    destruct (Lookup.process_item acc x) as [acc'|e] eqn:Hx; [|discriminate].
    cbn. intros Hrest Ht. apply (IH acc' Hrest).
    exact (process_item_keeps acc acc' x t d Hx Ht).
Qed.

(** Where an entry of the final mapping comes from. *)
Lemma for_each_origin (items : list json) (acc res : dict) (t d : string) :
  Py.for_each Lookup.process_item items acc = Ok res →
  res !! t = Some d →
  acc !! t = Some d
  ∨ ∃ item s, item ∈ items ∧ accepted item = Some (t, s)
      ∧ d = strip (before_first "..." s).
Proof.
  revert acc. induction items as [|x items IH]; intros acc.
  - intros [= <-]. auto.
  - rewrite for_each_cons.
    destruct (Lookup.process_item acc x) as [acc'|e] eqn:Hx; [|discriminate].
    cbn. intros Hrest Ht.
    destruct (IH acc' Hrest Ht) as [Hacc'|[item [s [Hin [Hacc Hd]]]]].
    + apply process_item_Ok in Hx.
      destruct (accepted x) as [[t' s']|] eqn:Hax; [|subst; auto].
      destruct (acc !! t') eqn:Ht'; subst; [auto|].
      destruct (decide (t' = t)) as [->|Hne].
      * rewrite lookup_insert_eq in Hacc'. injection Hacc' as <-.
        right. exists x, s'. split; [left|]. auto.
      * rewrite lookup_insert_ne in Hacc' by exact Hne. auto.
    + right. exists item, s. split; [right; exact Hin|]. auto.
Qed.

(** The first accepted item with a given title decides the entry. *)
Lemma for_each_first (pre post : list json) (item : json) (acc res : dict)
    (t s : string) :
  accepted item = Some (t, s) →
  (∀ x s', x ∈ pre → accepted x ≠ Some (t, s')) →
  acc !! t = None →
  Py.for_each Lookup.process_item (pre ++ item :: post) acc = Ok res →
  res !! t = Some (strip (before_first "..." s)).
Proof.
  intros Hitem. revert acc. induction pre as [|x pre IH]; intros acc Hpre Hacc.
  - cbn [app]. rewrite for_each_cons.
    rewrite (process_item_accepted acc item t s Hitem), Hacc. cbn.
    intros Hrest. apply (for_each_keeps _ _ _ _ _ Hrest).
    apply lookup_insert_eq.
  - cbn [app]. rewrite for_each_cons.
    destruct (Lookup.process_item acc x) as [acc'|e] eqn:Hx; [|discriminate].
    cbn. apply IH.
    + intros y s' Hy. apply Hpre. right. exact Hy.
    + apply process_item_Ok in Hx.
      destruct (accepted x) as [[t' s']|] eqn:Hax; [|subst; exact Hacc].
      destruct (acc !! t') eqn:Ht'; subst; [exact Hacc|].
      rewrite lookup_insert_ne; [exact Hacc|].
      intros ->. apply (Hpre x s'); [left|exact Hax].
Qed.

Lemma for_each_Raise (items : list json) (acc : dict) (e : exn) :
  Py.for_each Lookup.process_item items acc = Raise e →
  is_Exception e = true.
Proof.
  revert acc. induction items as [|x items IH]; intros acc; [discriminate|].
  rewrite for_each_cons.
  destruct (Lookup.process_item acc x) as [acc'|e'] eqn:Hx; cbn.
  - apply IH.
  - intros [= <-]. exact (process_item_Raise acc x e' Hx).
Qed.

(** The loop of [collect] runs over [items_of]. *)
Lemma collect_Ok (body : json) (results : dict) :
  Lookup.collect body = Ok results →
  Py.for_each Lookup.process_item (items_of body) ∅ = Ok results.
Proof.
  unfold Lookup.collect, items_of.
  destruct body as [| | |s|xs|fields]; cbn; try discriminate.
  - destruct (contains "items" s); cbn; [discriminate|tauto].
  - destruct (existsb (Py.is_str "items") xs); cbn; [discriminate|tauto].
  - destruct (fields !! "items") as [v|] eqn:Hv; cbn; [|tauto].
    destruct (Py.iter v) as [items|e]; cbn; [tauto|discriminate].
Qed.

Lemma collect_Raise (body : json) (e : exn) :
  Lookup.collect body = Raise e → is_Exception e = true.
Proof.
  unfold Lookup.collect.
  destruct body as [| | |s|xs|fields]; cbn;
    try (intros [= <-]; reflexivity).
  - destruct (contains "items" s); cbn; [|discriminate].
    intros [= <-]; reflexivity.
  - destruct (existsb (Py.is_str "items") xs); cbn; [|discriminate].
    intros [= <-]; reflexivity.
  - destruct (fields !! "items") as [v|] eqn:Hv; cbn; [|discriminate].
    destruct v as [| | |s|xs|m]; cbn; try (intros [= <-]; reflexivity).
    all: apply for_each_Raise.
Qed.

(** A response without an "items" field: nothing is collected, whatever
    the response is. *)
Lemma collect_no_items (body : json) :
  has_field "items" body = false →
  Lookup.collect body = Ok ∅ ∨ ∃ e, Lookup.collect body = Raise e.
Proof.
  unfold Lookup.collect, has_field.
  destruct body as [| | |s|xs|fields]; cbn; eauto.
  - destruct (contains "items" s); cbn; eauto.
  - destruct (existsb (Py.is_str "items") xs); cbn; eauto.
  - intros ->. cbn. eauto.
Qed.

Lemma accepted_inv (item : json) (t s : string) :
  accepted item = Some (t, s) →
  ∃ fields, item = JObj fields
    ∧ fields !! "title" = Some (JStr t)
    ∧ fields !! "snippet" = Some (JStr s)
    ∧ t ≠ "" ∧ s ≠ ""
    ∧ (contains "day" (lower t) = true
       ∨ contains "observance" (lower t) = true).
Proof.
  unfold accepted. destruct item as [| | | |?|fields]; try discriminate.
  destruct (fields !! "title") as [[| | | t' | |]|] eqn:Ht; try discriminate.
  destruct (fields !! "snippet") as [[| | | s' | |]|] eqn:Hs;
    try discriminate.
  destruct (String.eqb_spec t' ""), (String.eqb_spec s' ""); cbn;
    try discriminate.
  destruct (contains "day" (lower t')) eqn:Hday,
    (contains "observance" (lower t')) eqn:Hobs; cbn; try discriminate.
  all: intros [= <- <-]; exists fields; repeat split; auto.
Qed.

(** [accepted] is the test of the loop on an item with a text title and a
    text snippet. *)
Lemma accepted_spec (x : json) (t s : string) :
  accepted x = Some (t, s)
  ↔ ∃ fields, x = JObj fields
      ∧ fields !! "title" = Some (JStr t)
      ∧ fields !! "snippet" = Some (JStr s)
      ∧ Lookup.accepts (JStr t) (JStr s) = Ok true.
Proof.
  unfold accepted, Lookup.accepts, Py.truthy, Py.str_lower. split.
  - destruct x as [| | | |?|fields]; try discriminate.
    destruct (fields !! "title") as [[| | | t' | |]|] eqn:Ht;
      try discriminate.
    destruct (fields !! "snippet") as [[| | | s' | |]|] eqn:Hs;
      try discriminate.
    destruct (String.eqb t' "") eqn:E1, (String.eqb s' "") eqn:E2,
      (contains "day" (lower t')) eqn:E3,
      (contains "observance" (lower t')) eqn:E4;
      cbn; try discriminate.
    all: intros [= <- <-]; exists fields; repeat split; try assumption.
    all: cbn; rewrite E1, E2, E3; cbn; rewrite ?E4; reflexivity.
  - intros [fields [-> [-> [-> H]]]]. cbn in H.
    destruct (String.eqb t ""), (String.eqb s ""),
      (contains "day" (lower t)), (contains "observance" (lower t));
      cbn in *; congruence.
Qed.

(** Items as the provider documents them are processed without an
    exception. *)
Lemma process_item_well_formed (results : dict) (x : json) :
  well_formed_item x = true →
  ∃ results', Lookup.process_item results x = Ok results'.
Proof.
  unfold well_formed_item, Lookup.process_item.
  destruct x as [| | | |?|fields]; try discriminate.
  unfold Py.get. cbn.
  destruct (fields !! "title") as [[| | | t | |]|];
    destruct (fields !! "snippet") as [[| | | s | |]|];
    cbn; try discriminate; intros _;
    unfold Lookup.accepts, Py.truthy, Py.str_lower; cbn; eauto.
  - destruct (String.eqb t ""); cbn; eauto.
  - destruct (String.eqb t ""), (String.eqb s ""),
      (contains "day" (lower t)), (contains "observance" (lower t));
      cbn; rewrite ?index_split; cbn; eauto;
      destruct (results !! t); eauto.
  - destruct (String.eqb t ""); cbn; eauto.
Qed.

Lemma for_each_well_formed (items : list json) (acc : dict) :
  Forall (λ x, well_formed_item x = true) items →
  ∃ results, Py.for_each Lookup.process_item items acc = Ok results.
Proof.
  intros Hall. revert acc.
  induction Hall as [|x items Hx _ IH]; intros acc; [cbn; eauto|].
  rewrite for_each_cons.
  destruct (process_item_well_formed acc x Hx) as [acc' ->]. cbn.
  apply IH.
Qed.

Lemma collect_well_formed (items : list json) :
  Forall (λ x, well_formed_item x = true) items →
  ∃ results, Lookup.collect (response items) = Ok results.
Proof.
  intros Hall. unfold Lookup.collect, response. cbn.
  rewrite lookup_singleton_eq. cbn.
  apply for_each_well_formed. exact Hall.
Qed.

Section Runs.

Variable GOOGLE_CSE_API_KEY : string.
Variable GOOGLE_CSE_ID : string.
Variable provider : request → provider_outcome.

(** The run of [_search_special_days], effect by effect. *)
Lemma search_run (date_query : string) (tr : trace) :
  let r := lookup_request GOOGLE_CSE_API_KEY GOOGLE_CSE_ID date_query in
  let tr1 :=
    tr ++ [Log INFO [Lit "Attempting to use Google Custom Search API for special days..."];
           Log INFO [Lit "search_query="; Repr (req_q r)];
           Send r] in
  Lookup._search_special_days GOOGLE_CSE_API_KEY GOOGLE_CSE_ID provider
    date_query tr
  = match provider r with
    | Failed detail => (Raise (ProviderError detail), tr1)
    | Responded body =>
        match Lookup.collect body with
        | Ok results =>
            (Ok results,
             tr1 ++ [Log INFO [Lit "Google Custom Search API returned ";
                               Num (size results); Lit " results."]])
        | Raise e => (Raise e, tr1)
        end
    end.
Proof.
  unfold Lookup._search_special_days, Lookup.execute, lookup_request,
    Lookup.search_query, logging_info, emit, lift, raise.
  unfold mbind, M_bind, mret, M_ret. cbn.
  destruct (provider _) as [body|detail]; cbn;
    [|rewrite <- !(assoc_L (++)); reflexivity].
  destruct (Lookup.collect body) as [results|e]; cbn;
    rewrite <- !(assoc_L (++)); reflexivity.
Qed.

Lemma search_Raise (date_query : string) (tr tr' : trace) (e : exn) :
  Lookup._search_special_days GOOGLE_CSE_API_KEY GOOGLE_CSE_ID provider
    date_query tr = (Raise e, tr') →
  is_Exception e = true.
Proof.
  rewrite search_run. cbn zeta.
  destruct (provider _) as [body|detail].
  - destruct (Lookup.collect body) as [results|e'] eqn:Hc; [discriminate|].
    intros [= <- _]. exact (collect_Raise body e' Hc).
  - intros [= <- _]. reflexivity.
Qed.

(** The tool hands back what [try ... except Exception] leaves in
    [results]. *)
Lemma tool_run (date_query : string) (tr : trace) :
  Lookup.get_special_day_info_from_external_source GOOGLE_CSE_API_KEY
    GOOGLE_CSE_ID provider date_query tr
  = match Lookup._search_special_days GOOGLE_CSE_API_KEY GOOGLE_CSE_ID
            provider date_query
            (tr ++ [Log INFO [Lit "TOOL CALL: 'get_special_day_info_from_external_source' called with query: '";
                              Str date_query; Lit "'"]]) with
    | (Ok results, tr1) => (Ok results, tr1)
    | (Raise e, tr1) =>
        (Ok ∅,
         tr1 ++ [Log ERROR [Lit "Error fetching special day info via tool for '";
                            Str date_query; Lit "': "; Exc e]])
    end.
Proof.
  unfold Lookup.get_special_day_info_from_external_source, try_except,
    logging_info, logging_error, emit.
  unfold mbind, M_bind, mret, M_ret. cbn.
  destruct (Lookup._search_special_days _ _ _ _ _) as [[results|e] tr1] eqn:Hs;
    cbn; [reflexivity|].
  rewrite (search_Raise _ _ _ _ Hs). reflexivity.
Qed.

(** The mapping handed back is [found] of the provider's outcome. *)
Lemma tool_found (date_query : string) (tr : trace) :
  (Lookup.get_special_day_info_from_external_source GOOGLE_CSE_API_KEY
    GOOGLE_CSE_ID provider date_query tr).1
  = Ok (found (provider (lookup_request GOOGLE_CSE_API_KEY GOOGLE_CSE_ID
                           date_query))).
Proof.
  rewrite tool_run, search_run. cbn zeta. unfold found.
  destruct (provider _) as [body|detail]; [|reflexivity].
  destruct (Lookup.collect body); reflexivity.
Qed.

Lemma tool_returns (date_query : string) (tr : trace) :
  ∃ results tr', Lookup.get_special_day_info_from_external_source GOOGLE_CSE_API_KEY
    GOOGLE_CSE_ID provider date_query tr = (Ok results, tr').
Proof.
  rewrite tool_run.
  destruct (Lookup._search_special_days _ _ _ _ _) as [[results|e] tr1]; eauto.
Qed.

Lemma tool_result (date_query : string) (tr tr' : trace) (results : dict) :
  Lookup.get_special_day_info_from_external_source GOOGLE_CSE_API_KEY
    GOOGLE_CSE_ID provider date_query tr = (Ok results, tr') →
  results = found (provider (lookup_request GOOGLE_CSE_API_KEY GOOGLE_CSE_ID
                               date_query)).
Proof.
  intros H. pose proof (tool_found date_query tr) as Hf.
  rewrite H in Hf. cbn in Hf. congruence.
Qed.

(** Every entry handed back comes from an accepted item of the response. *)
Lemma tool_origin (date_query : string) (tr tr' : trace) (results : dict)
    (t d : string) :
  Lookup.get_special_day_info_from_external_source GOOGLE_CSE_API_KEY
    GOOGLE_CSE_ID provider date_query tr = (Ok results, tr') →
  results !! t = Some d →
  ∃ body item s,
    provider (lookup_request GOOGLE_CSE_API_KEY GOOGLE_CSE_ID date_query)
    = Responded body
    ∧ item ∈ items_of body ∧ accepted item = Some (t, s)
    ∧ d = strip (before_first "..." s).
Proof.
  intros H Ht. apply tool_result in H. subst results. unfold found in Ht.
  destruct (provider _) as [body|detail]; [|rewrite lookup_empty in Ht; discriminate].
  destruct (Lookup.collect body) as [results|e] eqn:Hc;
    [|rewrite lookup_empty in Ht; discriminate].
  apply collect_Ok in Hc.
  destruct (for_each_origin _ _ _ t d Hc Ht) as [Hempty|[item [s Horigin]]].
  - rewrite lookup_empty in Hempty. discriminate.
  - exists body, item, s. split; [reflexivity|exact Horigin].
Qed.

(** What is collected without an exception is what the tool hands back. *)
Lemma tool_collected (date_query : string) (tr : trace) (body : json)
    (results : dict) :
  provider (lookup_request GOOGLE_CSE_API_KEY GOOGLE_CSE_ID date_query)
  = Responded body →
  Lookup.collect body = Ok results →
  ∃ tr', Lookup.get_special_day_info_from_external_source GOOGLE_CSE_API_KEY
    GOOGLE_CSE_ID provider date_query tr = (Ok results, tr').
Proof.
  intros Hp Hc. rewrite tool_run, search_run. cbn zeta.
  rewrite Hp, Hc. eauto.
Qed.

End Runs.

End LookupFacts.

(** ** The script *)

Module ScriptFacts.

Section Runs.

Variable environ : gmap string string.
Variable strftime_today : string → string.
Variable provider : request → provider_outcome.
Variable HarmCategory : gset string.
Variable HarmBlockThreshold : gset string.
Variable runner_run : list piece → generator.

Lemma bind_run {A B} (m : M A) (f : A → M B) (tr : trace) :
  (m ≫= f) tr
  = match m tr with
    | (Ok a, tr') => f a tr'
    | (Raise e, tr') => (Raise e, tr')
    end.
Proof. reflexivity. Qed.

Lemma on_event_Raise (ev : event) (tr tr' : trace) (e : exn) :
  Script.on_event ev tr = (Raise e, tr') → is_Exception e = true.
Proof.
  unfold Script.on_event, Script.attr, logging_info, logging_error, print,
    emit, raise.
  unfold mbind, M_bind, mret, M_ret.
  repeat (destruct (String.eqb (ev_type ev) _); cbn;
          [match goal with
           | |- context [ev_tool_code ev] => destruct (ev_tool_code ev)
           | |- context [ev_tool_response ev] => destruct (ev_tool_response ev)
           | |- context [ev_agent_response ev] => destruct (ev_agent_response ev)
           | |- context [ev_error ev] => destruct (ev_error ev)
           end; cbn; try discriminate; intros [= <- _]; reflexivity|]).
  discriminate.
Qed.

(** A call of the registered tool returns. *)
Lemma tool_call_returns (date_query : string) (tr : trace) :
  ∃ results tr',
    Script.special_day_search_tool environ provider date_query tr
    = (Ok results, tr').
Proof.
  unfold Script.special_day_search_tool. apply LookupFacts.tool_returns.
Qed.

Lemma for_events_Raise (sts : list step) (end_ : ending) (tr tr' : trace)
    (e : exn) :
  Script.for_events environ provider sts end_ tr = (Raise e, tr') →
  is_Exception e = true.
Proof.
  revert tr. induction sts as [|[date_query|ev] sts IH]; intros tr.
  - destruct end_; cbn; [discriminate|]. intros [= <- _]. reflexivity.
  - cbn [Script.for_events]. rewrite bind_run.
    destruct (tool_call_returns date_query tr) as [results [tr1 ->]].
    apply IH.
  - cbn [Script.for_events]. rewrite bind_run.
    destruct (Script.on_event ev tr) as [[[]|e'] tr1] eqn:Hev.
    + discriminate.
    + apply IH.
    + intros [= <- _]. exact (on_event_Raise ev tr tr1 e' Hev).
Qed.

Lemma run_loop_Raise (prompt : list piece) (tr tr' : trace) (e : exn) :
  Script.run_loop environ provider runner_run prompt tr = (Raise e, tr') →
  is_Exception e = true.
Proof.
  unfold Script.run_loop. rewrite bind_run. cbn. apply for_events_Raise.
Qed.

(** The run of [run_daily_check]: what the loop leaves, and the two
    records of the handler when the loop raises. *)
Lemma run_daily_check_run (tr : trace) :
  let prompt := Script.initial_prompt strftime_today in
  let tr0 :=
    tr ++ [Stdout [Lit (nl +:+ "--- Running ADK Special Day Agent for ");
                   Str (strftime_today "%B %d, %Y"); Lit " ---"];
           Log INFO (Lit "Agent's initial prompt: " :: prompt)] in
  Script.run_daily_check environ strftime_today provider runner_run tr
  = match Script.run_loop environ provider runner_run prompt tr0 with
    | (Ok _, tr1) => (Ok (), tr1)
    | (Raise e, tr1) =>
        (Ok (),
         tr1 ++ [LogException [Lit "Unhandled error during ADK agent run."] e;
                 Stdout [Lit "An unhandled error occurred during ADK agent run: ";
                         Exc e]])
    end.
Proof.
  cbn zeta.
  unfold Script.run_daily_check, try_except, print, logging_info,
    logging_exception, emit.
  unfold mbind, M_bind. cbv beta iota.
  rewrite <- (assoc_L (++)). cbn [app].
  destruct (Script.run_loop _ _ _ _ _) as [[[]|e] tr1] eqn:Hloop;
    [reflexivity|].
  rewrite (run_loop_Raise _ _ _ _ Hloop).
  rewrite <- (assoc_L (++)). reflexivity.
Qed.

Lemma run_daily_check_returns (tr : trace) :
  ∃ tr',
    Script.run_daily_check environ strftime_today provider runner_run tr
    = (Ok (), tr').
Proof.
  rewrite run_daily_check_run. cbn zeta.
  destruct (Script.run_loop _ _ _ _ _) as [[[]|e] tr1]; eauto.
Qed.

(** How the process ends, and what it has done by then. *)
Lemma run_process_missing (is_main : bool) :
  Script.is_set (environ !! "GOOGLE_CSE_API_KEY")
  && Script.is_set (environ !! "GOOGLE_CSE_ID") = false →
  Script.run_process environ strftime_today provider HarmCategory
    HarmBlockThreshold runner_run is_main
  = (Exited 1,
     [Log ERROR [Lit "Missing GOOGLE_CSE_API_KEY or GOOGLE_CSE_ID in your .env file. Please ensure these are set for the Google Custom Search tool to function."]]).
Proof.
  intros Hmiss. unfold Script.run_process, Script.module.
  rewrite bind_run. unfold Script.configuration_check, Script.getenv.
  rewrite <- negb_andb, Hmiss. reflexivity.
Qed.

Lemma getattr_member (cls : gset string) (name : string) (tr : trace) :
  name ∈ cls → Script.getattr cls name tr = (Ok (), tr).
Proof.
  intros Hin. unfold Script.getattr.
  rewrite bool_decide_eq_true_2 by exact Hin. reflexivity.
Qed.

Lemma getattr_missing (cls : gset string) (name : string) (tr : trace) :
  name ∉ cls → Script.getattr cls name tr = (Raise (AttributeError name), tr).
Proof.
  intros Hout. unfold Script.getattr.
  rewrite bool_decide_eq_false_2 by exact Hout. reflexivity.
Qed.

(** The construction of the agent either raises [AttributeError] on one of
    the names it reads, without any effect, or creates the agent. *)
Lemma SpecialDayAgent_cases (model_name : string) (tr : trace) :
  (∃ name, name ∈ names_read
     ∧ Script.SpecialDayAgent HarmCategory HarmBlockThreshold model_name tr
       = (Raise (AttributeError name), tr))
  ∨ Script.SpecialDayAgent HarmCategory HarmBlockThreshold model_name tr
    = (Ok (), tr ++ [AgentCreated model_name]).
Proof.
  unfold Script.SpecialDayAgent, names_read.
  repeat (rewrite bind_run;
          match goal with
          | |- context [Script.getattr ?cls ?name tr] =>
              destruct (decide (name ∈ cls)) as [H|H];
              [rewrite (getattr_member cls name tr H); cbv beta iota; clear H
              |rewrite (getattr_missing cls name tr H);
               left; exists name; split;
               [apply list_elem_of_In; cbn;
                repeat (first [left; reflexivity|right])|reflexivity]]
          end).
  right. reflexivity.
Qed.

(** With the first name there and the second one missing, the construction
    raises on the second. *)
Lemma SpecialDayAgent_misspelt (model_name : string) (tr : trace) :
  "HARM_CATEGORY_HARASSMENT" ∈ HarmCategory →
  "BLOCK_NONE" ∈ HarmBlockThreshold →
  "HARMS_CATEGORY_HATE_SPEECH" ∉ HarmCategory →
  Script.SpecialDayAgent HarmCategory HarmBlockThreshold model_name tr
  = (Raise (AttributeError "HARMS_CATEGORY_HATE_SPEECH"), tr).
Proof.
  intros H1 H2 H3. unfold Script.SpecialDayAgent.
  rewrite bind_run, (getattr_member _ _ tr H1).
  rewrite bind_run, (getattr_member _ _ tr H2).
  rewrite bind_run, (getattr_missing _ _ tr H3). reflexivity.
Qed.

(** The module once the configuration check has passed. *)
Lemma run_process_configured (is_main : bool) :
  Script.is_set (environ !! "GOOGLE_CSE_API_KEY")
  && Script.is_set (environ !! "GOOGLE_CSE_ID") = true →
  Script.run_process environ strftime_today provider HarmCategory
    HarmBlockThreshold runner_run is_main
  = let tr0 := [ToolRegistered "get_special_day_info_from_external_source"] in
    if is_main then
      match Script.SpecialDayAgent HarmCategory HarmBlockThreshold
              "gemini-pro" tr0 with
      | (Ok _, tr1) =>
          match Script.run_daily_check environ strftime_today provider
                  runner_run tr1 with
          | (Ok _, tr2) =>
              (Exited 0,
               tr2 ++ [Stdout [Lit (nl +:+ "--- ADK Agent execution complete. ---")]])
          | (Raise (SystemExit code), tr2) => (Exited code, tr2)
          | (Raise e, tr2) => (Crashed e, tr2)
          end
      | (Raise (SystemExit code), tr1) => (Exited code, tr1)
      | (Raise e, tr1) => (Crashed e, tr1)
      end
    else (Exited 0, tr0).
Proof.
  intros Hconf. unfold Script.run_process, Script.module.
  rewrite !bind_run. unfold Script.configuration_check, Script.getenv.
  rewrite <- negb_andb, Hconf. cbn [negb mret M_ret].
  unfold Script.register_tool, emit at 1. cbn [app]. cbn zeta.
  destruct is_main; [|reflexivity].
  rewrite !bind_run.
  destruct (Script.SpecialDayAgent _ _ _ _) as [[[]|e] tr1]; [|reflexivity].
  rewrite bind_run.
  destruct (Script.run_daily_check _ _ _ _ _) as [[[]|e] tr2];
    reflexivity.
Qed.

End Runs.

End ScriptFacts.

Import PyStr PyStrFacts LookupFacts ScriptFacts.

(** ** The sample inputs, evaluated *)

Module Samples.

Example sample_lookup :
  (Lookup.get_special_day_info_from_external_source "key" "cx"
     (answering sample_response) "May 21" []).1
  = Ok {[ "International Day of X" := "A day for X" ]}.
Proof. vm_compute. reflexivity. Qed.

Example mixed_lookup :
  (Lookup.get_special_day_info_from_external_source "key" "cx"
     (answering mixed_response) "May 21" []).1
  = Ok {[ "World Day" := "first"; "OBSERVANCE list" := "hello" ]}.
Proof. vm_compute. reflexivity. Qed.

Example same_title_twice :
  Lookup.collect
    (response [item "World Day" "first"; item "World Day" "second"])
  = Ok {[ "World Day" := "first" ]}.
Proof. vm_compute. reflexivity. Qed.

Example no_items_lookup :
  (Lookup.get_special_day_info_from_external_source "key" "cx"
     (answering error_response) "May 21" []).1
  = Ok ∅.
Proof. vm_compute. reflexivity. Qed.

(** An item that is not an object makes the loop raise; the tool hands
    back the empty mapping, the entries collected so far are lost. *)
Example malformed_item_lookup :
  Lookup.get_special_day_info_from_external_source "key" "cx"
    (answering (response [item "World Day" "first"; JStr "stray"]))
    "May 21" []
  = (Ok ∅,
     [Log INFO [Lit "TOOL CALL: 'get_special_day_info_from_external_source' called with query: '";
                Str "May 21"; Lit "'"];
      Log INFO [Lit "Attempting to use Google Custom Search API for special days..."];
      Log INFO [Lit "search_query=";
                Repr "international OR world OR national day May 21 official observances"];
      Send (lookup_request "key" "cx" "May 21");
      Log ERROR [Lit "Error fetching special day info via tool for '";
                 Str "May 21"; Lit "': "; Exc (AttributeError "get")]]).
Proof. vm_compute. reflexivity. Qed.

Example failing_provider_lookup :
  Lookup.get_special_day_info_from_external_source "key" "cx"
    (failing "503") "May 21" []
  = (Ok ∅,
     [Log INFO [Lit "TOOL CALL: 'get_special_day_info_from_external_source' called with query: '";
                Str "May 21"; Lit "'"];
      Log INFO [Lit "Attempting to use Google Custom Search API for special days..."];
      Log INFO [Lit "search_query=";
                Repr "international OR world OR national day May 21 official observances"];
      Send (lookup_request "key" "cx" "May 21");
      Log ERROR [Lit "Error fetching special day info via tool for '";
                 Str "May 21"; Lit "': "; Exc (ProviderError "503")]]).
Proof. vm_compute. reflexivity. Qed.

Example split_pieces :
  split "..." "A day for X... more text... end"
  = ["A day for X"; " more text"; " end"].
Proof. vm_compute. reflexivity. Qed.

Example split_four_dots : split "..." "a...." = ["a"; "."].
Proof. vm_compute. reflexivity. Qed.

Example split_at_end : split "..." "a..." = ["a"; ""].
Proof. vm_compute. reflexivity. Qed.

Example lower_title :
  lower "International DAY of X" = "international day of x".
Proof. vm_compute. reflexivity. Qed.

(** The main program with the configuration set and the enumerations of
    the library: the construction of the agent raises on the second name
    it reads. *)
Example configured_run :
  Script.run_process configured (λ _, "May 21") (answering sample_response)
    library_HarmCategory library_HarmBlockThreshold
    (λ _, mkGenerator [Yields (final_response "Happy World Day!")]
            Exhausted)
    true
  = (Crashed (AttributeError "HARMS_CATEGORY_HATE_SPEECH"),
     [ToolRegistered "get_special_day_info_from_external_source"]).
Proof. vm_compute. reflexivity. Qed.

(** The daily check with a runtime that calls the tool once and then
    gives its final response. *)
Example daily_check_with_lookup :
  Script.run_daily_check configured (λ _, "May 21")
    (answering sample_response)
    (λ _, mkGenerator [Calls "May 21";
                       Yields (final_response "Happy World Day!")]
            (Raises "late"))
    []
  = (Ok (),
     [Stdout [Lit (nl +:+ "--- Running ADK Special Day Agent for ");
              Str "May 21"; Lit " ---"];
      Log INFO (Lit "Agent's initial prompt: "
                :: Script.initial_prompt (λ _, "May 21"));
      RunnerStarted (Script.initial_prompt (λ _, "May 21"));
      Log INFO [Lit "TOOL CALL: 'get_special_day_info_from_external_source' called with query: '";
                Str "May 21"; Lit "'"];
      Log INFO [Lit "Attempting to use Google Custom Search API for special days..."];
      Log INFO [Lit "search_query=";
                Repr "international OR world OR national day May 21 official observances"];
      Send (lookup_request "secret" "engine" "May 21");
      Log INFO [Lit "Google Custom Search API returned "; Num 1;
                Lit " results."];
      Stdout [Lit (nl +:+ "--- Agent's Final Output ---")];
      Stdout [Str "Happy World Day!"]]).
Proof. vm_compute. reflexivity. Qed.

End Samples.

(** ** Leaving an item out *)

Lemma requests_app (a b : trace) :
  Lookup.requests (a ++ b) = Lookup.requests a ++ Lookup.requests b.
Proof. unfold Lookup.requests. apply omap_app. Qed.

Lemma for_each_app {A B} (body : A → B → result A) (xs ys : list B) (acc : A) :
  Py.for_each body (xs ++ ys) acc
  = Py.for_each body xs acc ≫= Py.for_each body ys.
Proof.
  revert acc. induction xs as [|x xs IH]; intros acc; [reflexivity|].
  cbn [app]. rewrite !for_each_cons.
  destruct (body acc x) as [acc'|e]; cbn; [apply IH|reflexivity].
Qed.

(** An item that one turn of the loop passes over can be left out of the
    response. *)
Lemma for_each_skip (pre post : list json) (x : json) (acc : dict) :
  (∀ results, Lookup.process_item results x = Ok results) →
  Py.for_each Lookup.process_item (pre ++ x :: post) acc
  = Py.for_each Lookup.process_item (pre ++ post) acc.
Proof.
  intros Hx. rewrite !for_each_app.
  destruct (Py.for_each Lookup.process_item pre acc) as [acc'|e]; cbn;
    [|reflexivity].
  rewrite Hx. reflexivity.
Qed.

Lemma contains_lower_false (sub t : string) :
  ¬ contains_ignoring_case sub t → contains sub (lower t) = false.
Proof.
  intros Hno. destruct (contains sub (lower t)) eqn:Hc; [|reflexivity].
  exfalso. apply Hno, contains_lower_spec. exact Hc.
Qed.

(** A title without "day" and without "observance": the turn of the loop
    leaves the mapping as it is, and raises nothing. *)
Lemma process_item_irrelevant (results : dict) (fields : gmap string json)
    (t : string) :
  fields !! "title" = Some (JStr t) →
  contains "day" (lower t) = false →
  contains "observance" (lower t) = false →
  Lookup.process_item results (JObj fields) = Ok results.
Proof.
  intros Ht Hday Hobs. unfold Lookup.process_item, Py.get. cbn.
  rewrite Ht. unfold Lookup.accepts, Py.str_lower. cbn.
  rewrite Hday, Hobs.
  destruct (negb (String.eqb t "")); [|reflexivity].
  destruct (Py.truthy _); reflexivity.
Qed.

(** * The claims *)

(** C1. For every date query and whatever the provider does, the lookup
    tool returns a mapping and raises nothing: it hands back what
    [_search_special_days] returns, and when that routine raises, the
    exception is logged at level ERROR and the empty mapping is handed
    back; so it is for a provider that fails. *)
Theorem lookup_never_raises (key cx : string)
    (provider : request → provider_outcome) (date_query : string)
    (tr : trace) :
  (∃ results tr',
     Lookup.get_special_day_info_from_external_source key cx provider
       date_query tr = (Ok results, tr'))
  ∧ Lookup.get_special_day_info_from_external_source key cx provider
      date_query tr
    = match Lookup._search_special_days key cx provider date_query
              (tr ++ [Log INFO [Lit "TOOL CALL: 'get_special_day_info_from_external_source' called with query: '";
                                Str date_query; Lit "'"]]) with
      | (Ok results, tr1) => (Ok results, tr1)
      | (Raise e, tr1) =>
          (Ok ∅,
           tr1 ++ [Log ERROR [Lit "Error fetching special day info via tool for '";
                              Str date_query; Lit "': "; Exc e]])
      end
  ∧ ∀ detail, ∃ tr',
      Lookup.get_special_day_info_from_external_source key cx
        (failing detail) date_query tr = (Ok ∅, tr')
      ∧ Lookup.errors_logged tr'
        = Lookup.errors_logged tr
          ++ [[Lit "Error fetching special day info via tool for '";
               Str date_query; Lit "': "; Exc (ProviderError detail)]].
Proof.
  split; [apply tool_returns|]. split; [apply tool_run|].
  intros detail. rewrite tool_run, search_run. cbn zeta. unfold failing.
  eexists. split; [reflexivity|].
  unfold Lookup.errors_logged. rewrite !omap_app. cbn.
  rewrite !app_nil_r. reflexivity.
Qed.

(** C2. An item adds to the result mapping only if it has a title and a
    snippet and its title contains "day" or "observance" when case is
    ignored: so it is for one turn of the loop and for every entry of the
    mapping the tool returns.  An item whose title has neither is passed
    over: the turn leaves the mapping as it is, and the response gives the
    same mapping with the item left out. *)
Theorem only_relevant_items_contribute :
  (∀ (results results' : dict) (x : json),
     Lookup.process_item results x = Ok results' →
     results' ≠ results →
     ∃ fields t s,
       x = JObj fields
       ∧ fields !! "title" = Some (JStr t)
       ∧ fields !! "snippet" = Some (JStr s)
       ∧ (contains_ignoring_case "day" t
          ∨ contains_ignoring_case "observance" t))
  ∧ (∀ (key cx : string) (provider : request → provider_outcome)
       (date_query : string) (tr tr' : trace) (results : dict)
       (t d : string),
       Lookup.get_special_day_info_from_external_source key cx provider
         date_query tr = (Ok results, tr') →
       results !! t = Some d →
       ∃ body fields s,
         provider (lookup_request key cx date_query) = Responded body
         ∧ JObj fields ∈ items_of body
         ∧ fields !! "title" = Some (JStr t)
         ∧ fields !! "snippet" = Some (JStr s)
         ∧ (contains_ignoring_case "day" t
            ∨ contains_ignoring_case "observance" t))
  ∧ (∀ (fields : gmap string json) (t : string),
       fields !! "title" = Some (JStr t) →
       ¬ contains_ignoring_case "day" t →
       ¬ contains_ignoring_case "observance" t →
       (∀ results : dict,
          Lookup.process_item results (JObj fields) = Ok results)
       ∧ (∀ (pre post : list json) (acc : dict),
            Py.for_each Lookup.process_item (pre ++ JObj fields :: post) acc
            = Py.for_each Lookup.process_item (pre ++ post) acc)).
Proof.
  split; [|split].
  - intros results results' x Hx Hchanged. apply process_item_Ok in Hx.
    destruct (accepted x) as [[t s]|] eqn:Hacc; [|contradiction].
    destruct (accepted_inv x t s Hacc)
      as [fields [-> [Ht [Hs [_ [_ Hword]]]]]].
    exists fields, t, s. repeat split; try assumption.
    destruct Hword as [H|H]; [left|right]; apply contains_lower_spec, H.
  - intros key cx provider date_query tr tr' results t d Hrun Hd.
    destruct (tool_origin _ _ _ _ _ _ _ t d Hrun Hd)
      as [body [x [s [Hbody [Hin [Hacc _]]]]]].
    destruct (accepted_inv x t s Hacc)
      as [fields [-> [Ht [Hs [_ [_ Hword]]]]]].
    exists body, fields, s. repeat split; try assumption.
    destruct Hword as [H|H]; [left|right]; apply contains_lower_spec, H.
  - intros fields t Ht Hday Hobs.
    assert (∀ results : dict,
              Lookup.process_item results (JObj fields) = Ok results) as Hskip.
    { intros results. apply (process_item_irrelevant results fields t Ht);
        apply contains_lower_false; assumption. }
    split; [exact Hskip|].
    intros pre post acc. apply for_each_skip. exact Hskip.
Qed.

Lemma only_relevant_items_contribute_witness :
  (∃ fields t s,
     item "World Day" "first" = JObj fields
     ∧ fields !! "title" = Some (JStr t)
     ∧ fields !! "snippet" = Some (JStr s)
     ∧ (contains_ignoring_case "day" t
        ∨ contains_ignoring_case "observance" t))
  ∧ Lookup.process_item {[ "World Day" := "first" ]}
      (item "Something else" "zzz")
    = Ok {[ "World Day" := "first" ]}.
Proof.
  split.
  - apply (proj1 only_relevant_items_contribute ∅
             {[ "World Day" := "first" ]} (item "World Day" "first")).
    + vm_compute. reflexivity.
    + intros H. apply (f_equal (λ m : dict, m !! "World Day")) in H.
      vm_compute in H. discriminate H.
  - apply (proj2 (proj2 only_relevant_items_contribute)
             {[ "title" := JStr "Something else"; "snippet" := JStr "zzz" ]}
             "Something else").
    + vm_compute. reflexivity.
    + rewrite <- contains_lower_spec. vm_compute. discriminate.
    + rewrite <- contains_lower_spec. vm_compute. discriminate.
Defined.

(** C3. The description stored for an accepted item is its snippet up to
    the first "...", without the surrounding whitespace: so it is when the
    item is inserted, and for every entry of the mapping the tool returns.
    The item titled "International Day of X" with the snippet
    "A day for X... more text" gives the entry
    "International Day of X" -> "A day for X". *)
Theorem description_is_trimmed_snippet_start :
  (∀ (results : dict) (x : json) (t s : string),
     accepted x = Some (t, s) →
     results !! t = None →
     ∃ d, Lookup.describe (JStr s) = Ok d
          ∧ Lookup.process_item results x = Ok (<[t := d]> results)
          ∧ description_of s d)
  ∧ (∀ (key cx : string) (provider : request → provider_outcome)
       (date_query : string) (tr tr' : trace) (results : dict)
       (t d : string),
       Lookup.get_special_day_info_from_external_source key cx provider
         date_query tr = (Ok results, tr') →
       results !! t = Some d →
       ∃ body fields s,
         provider (lookup_request key cx date_query) = Responded body
         ∧ JObj fields ∈ items_of body
         ∧ fields !! "title" = Some (JStr t)
         ∧ fields !! "snippet" = Some (JStr s)
         ∧ Lookup.describe (JStr s) = Ok d
         ∧ description_of s d)
  ∧ (∀ (key cx date_query : string) (tr : trace),
       ∃ tr',
         Lookup.get_special_day_info_from_external_source key cx
           (answering sample_response) date_query tr
         = (Ok {[ "International Day of X" := "A day for X" ]}, tr')).
Proof.
  split; [|split].
  - intros results x t s Hacc Hfree.
    exists (strip (before_first "..." s)). split; [|split].
    + apply describe_str.
    + rewrite (process_item_accepted results x t s Hacc), Hfree.
      reflexivity.
    + apply description_of_iff. reflexivity.
  - intros key cx provider date_query tr tr' results t d Hrun Hd.
    destruct (tool_origin _ _ _ _ _ _ _ t d Hrun Hd)
      as [body [x [s [Hbody [Hin [Hacc ->]]]]]].
    destruct (accepted_inv x t s Hacc) as [fields [-> [Ht [Hs _]]]].
    exists body, fields, s. repeat split; try assumption.
    + apply describe_str.
    + apply description_of_iff. reflexivity.
  - intros key cx date_query tr.
    apply (tool_collected key cx (answering sample_response) date_query tr
             sample_response); [reflexivity|].
    vm_compute. reflexivity.
Qed.

Lemma description_is_trimmed_snippet_start_witness :
  ∃ d, Lookup.describe (JStr "A day for X... more text") = Ok d
       ∧ Lookup.process_item ∅
           (item "International Day of X" "A day for X... more text")
         = Ok (<["International Day of X" := d]> ∅)
       ∧ description_of "A day for X... more text" d.
Proof.
  apply (proj1 description_is_trimmed_snippet_start ∅
           (item "International Day of X" "A day for X... more text")
           "International Day of X" "A day for X... more text").
  - vm_compute. reflexivity.
  - vm_compute. reflexivity.
Defined.

(** C4. When accepted items share a title, the mapping keeps the
    description of the first of them in response order: the tool returns
    the collected mapping, in it the title maps to the description of the
    first accepted item with that title, and no later turn of the loop
    changes an entry that is there. *)
Theorem first_description_is_kept (key cx : string)
    (provider : request → provider_outcome) (date_query : string)
    (tr : trace) (body : json) (results : dict) (pre post : list json)
    (x : json) (t s : string) :
  provider (lookup_request key cx date_query) = Responded body →
  Lookup.collect body = Ok results →
  items_of body = pre ++ x :: post →
  accepted x = Some (t, s) →
  (∀ y s', y ∈ pre → accepted y ≠ Some (t, s')) →
  (∃ tr', Lookup.get_special_day_info_from_external_source key cx provider
            date_query tr = (Ok results, tr'))
  ∧ (∃ d, Lookup.describe (JStr s) = Ok d
          ∧ results !! t = Some d
          ∧ description_of s d)
  ∧ (∀ (before after : dict) (later : json) (d : string),
       before !! t = Some d →
       Lookup.process_item before later = Ok after →
       after !! t = Some d).
Proof.
  intros Hp Hc Hitems Hacc Hfirst. split; [|split].
  - exact (tool_collected key cx provider date_query tr body results Hp Hc).
  - exists (strip (before_first "..." s)). split; [|split].
    + apply describe_str.
    + apply collect_Ok in Hc. rewrite Hitems in Hc.
      apply (for_each_first pre post x ∅ results t s Hacc Hfirst);
        [apply lookup_empty|exact Hc].
    + apply description_of_iff. reflexivity.
  - intros before after later d Hd Hlater.
    exact (process_item_keeps before after later t d Hlater Hd).
Qed.

Lemma first_description_is_kept_witness :
  ∃ results : dict,
    Lookup.collect mixed_response = Ok results
    ∧ ∃ d, Lookup.describe (JStr "  first... a") = Ok d
           ∧ results !! "World Day" = Some d
           ∧ description_of "  first... a" d.
Proof.
  eexists. split; [vm_compute; reflexivity|].
  apply (first_description_is_kept "key" "cx" (answering mixed_response)
           "May 21" [] mixed_response _
           [item "Something else" "zzz"]
           [item "World Day" "second"; item "OBSERVANCE list" "hello "]
           (item "World Day" "  first... a") "World Day" "  first... a").
  - reflexivity.
  - vm_compute. reflexivity.
  - vm_compute. reflexivity.
  - vm_compute. reflexivity.
  - intros y s' ->%list_elem_of_singleton. vm_compute. discriminate.
Defined.

(** C5. A provider response without an "items" field gives the empty
    mapping: the tool hands back the empty mapping, and when the response
    is an object [_search_special_days] itself returns it, without an
    exception. *)
Theorem no_items_field_gives_empty (key cx : string)
    (provider : request → provider_outcome) (date_query : string)
    (tr : trace) (body : json) :
  provider (lookup_request key cx date_query) = Responded body →
  has_field "items" body = false →
  (∃ tr', Lookup.get_special_day_info_from_external_source key cx provider
            date_query tr = (Ok ∅, tr'))
  ∧ (∀ fields, body = JObj fields →
       ∃ tr', Lookup._search_special_days key cx provider date_query tr
              = (Ok ∅, tr')).
Proof.
  intros Hp Hno. split.
  - rewrite tool_run, search_run. cbn zeta. rewrite Hp.
    destruct (collect_no_items body Hno) as [->|[e ->]]; eauto.
  - intros fields ->. rewrite search_run. cbn zeta. rewrite Hp.
    unfold Lookup.collect. cbn. cbn in Hno. rewrite Hno. cbn. eauto.
Qed.

Lemma no_items_field_gives_empty_witness :
  ∃ tr', Lookup.get_special_day_info_from_external_source "key" "cx"
           (answering error_response) "May 21" [] = (Ok ∅, tr').
Proof.
  apply (no_items_field_gives_empty "key" "cx" (answering error_response)
           "May 21" [] error_response).
  - reflexivity.
  - vm_compute. reflexivity.
Defined.

(** C6. A lookup sends exactly one request to the provider.  Its query
    text is the date query between the fixed texts
    "international OR world OR national day " and " official observances",
    so it contains the four keywords and the date query; its result-count
    limit is 5. *)
Theorem one_request_per_lookup (key cx : string)
    (provider : request → provider_outcome) (date_query : string)
    (tr : trace) :
  let q := "international OR world OR national day " +:+ date_query
           +:+ " official observances" in
  Lookup.requests
    (Lookup.get_special_day_info_from_external_source key cx provider
       date_query tr).2
  = Lookup.requests tr ++ [mkRequest "customsearch" "v1" key q cx 5]
  ∧ contains "international" q = true
  ∧ contains "world" q = true
  ∧ contains "national day" q = true
  ∧ contains "official observances" q = true
  ∧ contains date_query q = true.
Proof.
  cbn zeta. split.
  - rewrite tool_run, search_run. cbn zeta. unfold lookup_request.
    destruct (provider _) as [body|detail];
      [destruct (Lookup.collect body)|]; cbn [snd];
      rewrite !requests_app; cbn; rewrite !app_nil_r; reflexivity.
  - split; [reflexivity|]. split; [reflexivity|]. split; [reflexivity|].
    split; apply contains_spec.
    + exists ("international OR world OR national day " +:+ date_query
              +:+ " "), "".
      rewrite !append_assoc. reflexivity.
    + exists "international OR world OR national day ". eexists.
      reflexivity.
Qed.

(** C7. When the API key or the search-engine identifier is absent from
    the environment, the process ends with exit status 1 after logging one
    error record: no agent is created, the runner is not started and no
    request is sent. *)
Theorem missing_configuration_ends_process (environ : gmap string string)
    (strftime_today : string → string)
    (provider : request → provider_outcome)
    (HarmCategory HarmBlockThreshold : gset string)
    (runner_run : list piece → generator) (is_main : bool) :
  environ !! "GOOGLE_CSE_API_KEY" = None
  ∨ environ !! "GOOGLE_CSE_ID" = None →
  let out := Script.run_process environ strftime_today provider HarmCategory
               HarmBlockThreshold runner_run is_main in
  out = (Exited 1,
         [Log ERROR [Lit "Missing GOOGLE_CSE_API_KEY or GOOGLE_CSE_ID in your .env file. Please ensure these are set for the Google Custom Search tool to function."]])
  ∧ Script.exit_status out.1 ≠ 0%Z
  ∧ Forall (λ e, Script.agent_or_network e = false) out.2.
Proof.
  intros Habsent. cbn zeta.
  rewrite run_process_missing.
  - split; [reflexivity|]. split; [discriminate|].
    repeat constructor.
  - destruct Habsent as [-> | ->]; [reflexivity|apply andb_false_r].
Qed.

Lemma missing_configuration_ends_process_witness :
  Script.exit_status
    (Script.run_process {[ "GOOGLE_CSE_API_KEY" := "secret" ]}
       (λ _, "May 21") (answering sample_response) library_HarmCategory
       library_HarmBlockThreshold no_events true).1 ≠ 0%Z.
Proof.
  apply (missing_configuration_ends_process
           {[ "GOOGLE_CSE_API_KEY" := "secret" ]}
           (λ _, "May 21") (answering sample_response) library_HarmCategory
           library_HarmBlockThreshold no_events true).
  right. vm_compute. reflexivity.
Defined.

(** C8. The claim has the process end early for missing configuration
    only, errors of the agent runtime being caught in the daily check.  The
    code does not get that far: with both configuration values set, the
    main program builds the agent first, and building it reads
    [HarmCategory.HARMS_CATEGORY_HATE_SPEECH] (the line before spells
    [HARM_CATEGORY_HARASSMENT]).  Where the enumeration has the first name
    and not the second, as in the library, that raises [AttributeError]
    outside any [try]: the process ends by the uncaught exception, with
    status 1, after registering the tool and before the daily check. *)
Theorem misspelt_harm_category_ends_process (environ : gmap string string)
    (strftime_today : string → string)
    (provider : request → provider_outcome)
    (HarmCategory HarmBlockThreshold : gset string)
    (runner_run : list piece → generator) :
  Script.is_set (environ !! "GOOGLE_CSE_API_KEY")
  && Script.is_set (environ !! "GOOGLE_CSE_ID") = true →
  "HARM_CATEGORY_HARASSMENT" ∈ HarmCategory →
  "BLOCK_NONE" ∈ HarmBlockThreshold →
  "HARMS_CATEGORY_HATE_SPEECH" ∉ HarmCategory →
  let out := Script.run_process environ strftime_today provider HarmCategory
               HarmBlockThreshold runner_run true in
  out = (Crashed (AttributeError "HARMS_CATEGORY_HATE_SPEECH"),
         [ToolRegistered "get_special_day_info_from_external_source"])
  ∧ Script.exit_status out.1 = 1%Z.
Proof.
  intros Hconf H1 H2 H3. cbn zeta.
  rewrite (run_process_configured _ _ _ _ _ _ _ Hconf). cbn zeta.
  rewrite (SpecialDayAgent_misspelt _ _ _ _ H1 H2 H3).
  split; reflexivity.
Qed.

Lemma misspelt_harm_category_ends_process_witness :
  Script.run_process configured (λ _, "May 21") (answering sample_response)
    library_HarmCategory library_HarmBlockThreshold no_events true
  = (Crashed (AttributeError "HARMS_CATEGORY_HATE_SPEECH"),
     [ToolRegistered "get_special_day_info_from_external_source"])
  ∧ Script.exit_status
      (Script.run_process configured (λ _, "May 21")
         (answering sample_response) library_HarmCategory
         library_HarmBlockThreshold no_events true).1 = 1%Z.
Proof.
  apply (misspelt_harm_category_ends_process configured (λ _, "May 21")
           (answering sample_response) library_HarmCategory
           library_HarmBlockThreshold no_events).
  - vm_compute. reflexivity.
  - apply (bool_decide_unpack _). vm_compute. exact I.
  - apply (bool_decide_unpack _). vm_compute. exact I.
  - apply (bool_decide_unpack _). vm_compute. exact I.
Defined.

(** C9. In every mapping the lookup tool returns, no description contains
    "..." and none begins or ends with a whitespace character. *)
Theorem descriptions_are_clean (key cx : string)
    (provider : request → provider_outcome) (date_query : string)
    (tr tr' : trace) (results : dict) (t d : string) :
  Lookup.get_special_day_info_from_external_source key cx provider
    date_query tr = (Ok results, tr') →
  results !! t = Some d →
  contains "..." d = false
  ∧ (∀ c, first_char d = Some c → isspace c = false)
  ∧ (∀ c, last_char d = Some c → isspace c = false).
Proof.
  intros Hrun Ht.
  destruct (tool_origin _ _ _ _ _ _ _ t d Hrun Ht)
    as [body [x [s [_ [_ [_ ->]]]]]].
  split.
  - apply strip_contains, before_first_free. discriminate.
  - exact (proj2 (strip_trimmed _)).
Qed.

Lemma descriptions_are_clean_witness :
  contains "..." "first" = false
  ∧ (∀ c, first_char "first" = Some c → isspace c = false)
  ∧ (∀ c, last_char "first" = Some c → isspace c = false).
Proof.
  eapply (descriptions_are_clean "key" "cx" (answering mixed_response)
            "May 21" [] _ _ "World Day" "first").
  - vm_compute. reflexivity.
  - vm_compute. reflexivity.
Defined.

(** C10. An item whose title or snippet is the empty string, both fields
    being there, is passed over: it is not accepted, its turn of the loop
    leaves the mapping as it is, and the response gives the same mapping
    with the item left out. *)
Theorem empty_title_or_snippet_is_excluded (fields : gmap string json)
    (title snippet : json) :
  fields !! "title" = Some title →
  fields !! "snippet" = Some snippet →
  title = JStr "" ∨ snippet = JStr "" →
  accepted (JObj fields) = None
  ∧ (∀ results : dict,
       Lookup.process_item results (JObj fields) = Ok results)
  ∧ (∀ (pre post : list json) (acc : dict),
       Py.for_each Lookup.process_item (pre ++ JObj fields :: post) acc
       = Py.for_each Lookup.process_item (pre ++ post) acc).
Proof.
  intros Ht Hs Hempty.
  assert (∀ results : dict,
            Lookup.process_item results (JObj fields) = Ok results) as Hskip.
  { intros results. unfold Lookup.process_item, Py.get. cbn.
    rewrite Ht, Hs. cbn. unfold Lookup.accepts.
    destruct Hempty as [->| ->]; cbn; [reflexivity|].
    destruct (Py.truthy title); reflexivity. }
  split; [|split].
  - unfold accepted. rewrite Ht, Hs.
    destruct Hempty as [->| ->]; cbn.
    + destruct snippet; reflexivity.
    + destruct title as [| | |t| |]; try reflexivity.
      rewrite andb_false_r. reflexivity.
  - exact Hskip.
  - intros pre post acc. apply for_each_skip. exact Hskip.
Qed.

Lemma empty_title_or_snippet_is_excluded_witness :
  accepted (item "World Day" "") = None
  ∧ (∀ results : dict,
       Lookup.process_item results (item "World Day" "") = Ok results)
  ∧ (∀ (pre post : list json) (acc : dict),
       Py.for_each Lookup.process_item (pre ++ item "World Day" "" :: post)
         acc
       = Py.for_each Lookup.process_item (pre ++ post) acc).
Proof.
  apply (empty_title_or_snippet_is_excluded
           {[ "title" := JStr "World Day"; "snippet" := JStr "" ]}
           (JStr "World Day") (JStr "")).
  - vm_compute. reflexivity.
  - vm_compute. reflexivity.
  - right. reflexivity.
Defined.

(** * Further properties of the lookup *)

Ltac split_conditions :=
  repeat (match goal with
          | |- context [if ?c then _ else _] => destruct c
          | |- context [negb ?c] => destruct c
          | |- context [andb ?c _] => destruct c
          | |- context [orb ?c _] => destruct c
          | |- context [match ?c with [] => _ | _ => _ end] => destruct c
          end; cbn).

Lemma process_item_malformed (results : dict) (x : json) :
  malformed x = true → ∃ e, Lookup.process_item results x = Raise e.
Proof.
  unfold malformed, relevant, Lookup.process_item.
  destruct x as [| | | |?|fields]; cbn; eauto.
  unfold Py.get. cbn.
  destruct (fields !! "title") as [[| b | q | t | xs | m]|];
    destruct (fields !! "snippet") as [[| b' | q' | s | xs' | m']|];
    unfold Lookup.accepts, Py.truthy, Py.str_lower, is_text; cbn.
  all: rewrite ?index_split; split_conditions; try discriminate; eauto.
Qed.

Lemma process_item_not_malformed (results : dict) (x : json) :
  malformed x = false →
  ∃ results', Lookup.process_item results x = Ok results'.
Proof.
  unfold malformed, relevant, Lookup.process_item.
  destruct x as [| | | |?|fields]; cbn; try discriminate.
  unfold Py.get. cbn.
  destruct (fields !! "title") as [[| b | q | t | xs | m]|];
    destruct (fields !! "snippet") as [[| b' | q' | s | xs' | m']|];
    unfold Lookup.accepts, Py.truthy, Py.str_lower, is_text; cbn.
  all: rewrite ?index_split; split_conditions; try discriminate; eauto.
  all: destruct (results !! t); eauto.
Qed.

Lemma for_each_malformed (items : list json) (acc : dict) (x : json) :
  x ∈ items → malformed x = true →
  ∃ e, Py.for_each Lookup.process_item items acc = Raise e.
Proof.
  intros Hin Hbad. revert acc.
  induction Hin as [x items|x y items Hin IH]; intros acc;
    rewrite for_each_cons.
  - destruct (process_item_malformed acc x Hbad) as [e ->]. cbn. eauto.
  - destruct (Lookup.process_item acc y) as [acc'|e]; cbn; eauto.
Qed.

Lemma for_each_not_malformed (items : list json) (acc : dict) :
  Forall (λ x, malformed x = false) items →
  ∃ results, Py.for_each Lookup.process_item items acc = Ok results.
Proof.
  intros Hall. revert acc.
  induction Hall as [|x items Hx _ IH]; intros acc; [cbn; eauto|].
  rewrite for_each_cons.
  destruct (process_item_not_malformed acc x Hx) as [acc' ->]. cbn.
  apply IH.
Qed.

Lemma for_each_Ok_not_malformed (items : list json) (acc results : dict) :
  Py.for_each Lookup.process_item items acc = Ok results →
  Forall (λ x, malformed x = false) items.
Proof.
  intros Hok. apply Forall_forall. intros x Hin.
  destruct (malformed x) eqn:Hbad; [|reflexivity].
  destruct (for_each_malformed items acc x Hin Hbad) as [e He].
  congruence.
Qed.

Lemma collect_items_array (fields : gmap string json) (items : list json) :
  fields !! "items" = Some (JArr items) →
  Lookup.collect (JObj fields) = Py.for_each Lookup.process_item items ∅.
Proof.
  intros Hitems. unfold Lookup.collect. cbn. rewrite Hitems. reflexivity.
Qed.

Lemma collect_response (items : list json) :
  Lookup.collect (response items) = Py.for_each Lookup.process_item items ∅.
Proof. apply collect_items_array. apply lookup_singleton_eq. Qed.

Lemma process_item_lookup_exception (results : dict) (x : json) (e : exn) :
  Lookup.process_item results x = Raise e → lookup_exception e = true.
Proof.
  unfold Lookup.process_item.
  destruct x as [| | | |?|fields]; try (intros [= <-]; reflexivity).
  unfold Py.get. cbn.
  destruct (fields !! "title") as [[| b | q | t | xs | m]|];
    destruct (fields !! "snippet") as [[| b' | q' | s | xs' | m']|];
    unfold Lookup.accepts, Py.truthy, Py.str_lower; cbn.
  all: rewrite ?index_split; split_conditions; try discriminate;
    try (intros [= <-]; reflexivity).
  all: destruct (results !! t); discriminate.
Qed.

Lemma for_each_lookup_exception (items : list json) (acc : dict) (e : exn) :
  Py.for_each Lookup.process_item items acc = Raise e →
  lookup_exception e = true.
Proof.
  revert acc. induction items as [|x items IH]; intros acc; [discriminate|].
  rewrite for_each_cons.
  destruct (Lookup.process_item acc x) as [acc'|e'] eqn:Hx; cbn.
  - apply IH.
  - intros [= <-]. exact (process_item_lookup_exception acc x e' Hx).
Qed.

Lemma collect_lookup_exception (body : json) (e : exn) :
  Lookup.collect body = Raise e → lookup_exception e = true.
Proof.
  unfold Lookup.collect.
  destruct body as [| | |s|xs|fields]; cbn;
    try (intros [= <-]; reflexivity).
  - destruct (contains "items" s); cbn; [|discriminate].
    intros [= <-]; reflexivity.
  - destruct (existsb (Py.is_str "items") xs); cbn; [|discriminate].
    intros [= <-]; reflexivity.
  - destruct (fields !! "items") as [v|] eqn:Hv; cbn; [|discriminate].
    destruct v as [| | |s|xs|m]; cbn; try (intros [= <-]; reflexivity).
    all: apply for_each_lookup_exception.
Qed.

Lemma errors_logged_app (a b : trace) :
  Lookup.errors_logged (a ++ b)
  = Lookup.errors_logged a ++ Lookup.errors_logged b.
Proof. unfold Lookup.errors_logged. apply omap_app. Qed.

(** The loop in closed form: the entries of the accepted items, the first
    one winning for a title, under what the mapping held before. *)
Lemma for_each_closed (items : list json) (acc results : dict) :
  Py.for_each Lookup.process_item items acc = Ok results →
  results = acc ∪ list_to_map (entries items).
Proof.
  revert acc. induction items as [|x items IH]; intros acc.
  - intros [= <-]. cbn. rewrite (right_id_L ∅ (∪)). reflexivity.
  - rewrite for_each_cons.
    destruct (Lookup.process_item acc x) as [acc'|e] eqn:Hx; [|discriminate].
    cbn [mbind result_bind]. intros Hrest. apply IH in Hrest. subst results.
    apply process_item_Ok in Hx. cbn [entries].
    destruct (accepted x) as [[t s]|]; [|subst; reflexivity].
    cbn [list_to_map foldr uncurry]. cbn.
    destruct (acc !! t) as [d|] eqn:Ht; subst acc'.
    + apply map_eq. intros k. rewrite !lookup_union.
      destruct (decide (t = k)) as [<-|Hne].
      * rewrite Ht, lookup_insert_eq.
        destruct (list_to_map (entries items) !! t); reflexivity.
      * rewrite lookup_insert_ne by exact Hne. reflexivity.
    + rewrite <- insert_union_l. apply insert_union_r. exact Ht.
Qed.

Lemma length_entries (items : list json) :
  length (entries items) ≤ length items.
Proof.
  induction items as [|x items IH]; [reflexivity|]. cbn.
  destruct (accepted x) as [[t s]|]; cbn; lia.
Qed.

Lemma size_list_to_map_le (l : list (string * string)) :
  size (list_to_map l : dict) ≤ length l.
Proof.
  induction l as [|[k v] l IH].
  { change (list_to_map [] : dict) with (∅ : dict).
    rewrite map_size_empty. reflexivity. }
  change (list_to_map ((k, v) :: l) : dict)
    with (<[k:=v]> (list_to_map l : dict)).
  cbn [length].
  destruct ((list_to_map l : dict) !! k) as [w|] eqn:Hk.
  - rewrite map_size_insert_Some by (rewrite Hk; eauto). lia.
  - rewrite map_size_insert_None by exact Hk. lia.
Qed.

Lemma entries_Permutation (items items' : list json) :
  items ≡ₚ items' → entries items ≡ₚ entries items'.
Proof.
  induction 1 as [|x l l' _ IH|x y l|l l' l'' _ IH1 _ IH2]; cbn.
  - reflexivity.
  - destruct (accepted x) as [[t s]|]; [constructor|]; exact IH.
  - destruct (accepted x) as [[t s]|], (accepted y) as [[t' s']|];
      try reflexivity. apply perm_swap.
  - etransitivity; eassumption.
Qed.

Lemma for_each_texts (l : list string) (acc : dict) :
  Py.for_each Lookup.process_item (JStr <$> l) acc
  = match l with
    | [] => Ok acc
    | _ => Raise (AttributeError "get")
    end.
Proof. destruct l; reflexivity. Qed.

Lemma before_first_after_space (ws rest : string) :
  all_space ws = true → before_first "..." (ws +:+ "..." +:+ rest) = ws.
Proof.
  induction ws as [|c ws IH].
  - intros _. rewrite before_first_unfold.
    assert (String.prefix "..." ("" +:+ "..." +:+ rest) = true) as ->
      by (apply prefix_spec; exists rest; reflexivity).
    reflexivity.
  - cbn [all_space]. intros [Hc Hws]%andb_true_iff.
    rewrite append_cons, before_first_unfold, prefix_cons.
    destruct (decide ("."%char = c)) as [<-|Hne]; [discriminate Hc|].
    rewrite bool_decide_eq_false_2 by exact Hne. cbn [andb].
    rewrite (IH Hws). reflexivity.
Qed.

Lemma strip_all_space (ws : string) : all_space ws = true → strip ws = "".
Proof.
  intros Hws. unfold strip.
  rewrite <- (append_nil_r ws), (lstrip_all_space ws "" Hws). reflexivity.
Qed.

(** X1. When [_search_special_days] raises, the exception is the
    provider's failure, an [AttributeError] on [get], [lower] or [split],
    or a [TypeError] (never a [KeyError] or an [IndexError]); the request
    has been sent and is the last effect: no count of results is logged.
    A failure of the provider comes out unchanged. *)
Theorem search_raises_only_lookup_errors (key cx : string)
    (provider : request → provider_outcome) (date_query : string)
    (tr tr' : trace) (e : exn) :
  Lookup._search_special_days key cx provider date_query tr
  = (Raise e, tr') →
  lookup_exception e = true
  ∧ last tr' = Some (Send (lookup_request key cx date_query))
  ∧ (∀ detail,
       provider (lookup_request key cx date_query) = Failed detail →
       e = ProviderError detail).
Proof.
  rewrite search_run. cbn zeta.
  destruct (provider _) as [body|detail].
  - destruct (Lookup.collect body) as [results|e'] eqn:Hc; [discriminate|].
    intros [= <- <-]. split; [exact (collect_lookup_exception body e' Hc)|].
    split; [|discriminate].
    rewrite last_app. reflexivity.
  - intros [= <- <-]. split; [reflexivity|].
    split; [rewrite last_app; reflexivity|].
    intros detail' [= <-]. reflexivity.
Qed.

Lemma search_raises_only_lookup_errors_witness :
  lookup_exception (AttributeError "get") = true
  ∧ last [Log INFO [Lit "Attempting to use Google Custom Search API for special days..."];
          Log INFO [Lit "search_query=";
                    Repr "international OR world OR national day May 21 official observances"];
          Send (lookup_request "key" "cx" "May 21")]
    = Some (Send (lookup_request "key" "cx" "May 21"))
  ∧ (∀ detail,
       answering (response [JNull]) (lookup_request "key" "cx" "May 21")
       = Failed detail →
       AttributeError "get" = ProviderError detail).
Proof.
  apply (search_raises_only_lookup_errors "key" "cx"
           (answering (response [JNull])) "May 21" []).
  vm_compute. reflexivity.
Defined.

(** X2. The tool logs an ERROR record exactly when the lookup failed: the
    log gains none if and only if the provider answered and its response
    was processed without an exception. *)
Theorem error_logged_iff_lookup_failed (key cx : string)
    (provider : request → provider_outcome) (date_query : string)
    (tr : trace) :
  Lookup.errors_logged
    (Lookup.get_special_day_info_from_external_source key cx provider
       date_query tr).2
  = Lookup.errors_logged tr
  ↔ ∃ body results,
      provider (lookup_request key cx date_query) = Responded body
      ∧ Lookup.collect body = Ok results.
Proof.
  rewrite tool_run, search_run. cbn zeta.
  destruct (provider _) as [body|detail];
    [destruct (Lookup.collect body) as [results|e] eqn:Hc|]; cbn [snd];
    rewrite !errors_logged_app; cbn; rewrite !app_nil_r.
  - split; [eauto|reflexivity].
  - split.
    + intros H. apply (f_equal length) in H.
      rewrite length_app in H. cbn in H. lia.
    + intros [body' [results [[= <-] Hc']]]. congruence.
  - split.
    + intros H. apply (f_equal length) in H.
      rewrite length_app in H. cbn in H. lia.
    + intros [body' [results [Hp _]]]. discriminate.
Qed.

Lemma error_logged_iff_lookup_failed_witness :
  Lookup.errors_logged
    (Lookup.get_special_day_info_from_external_source "key" "cx"
       (answering mixed_response) "May 21" []).2
  = Lookup.errors_logged [].
Proof.
  apply (proj2 (error_logged_iff_lookup_failed "key" "cx"
                  (answering mixed_response) "May 21" [])).
  eexists _, _. split; [reflexivity|]. vm_compute. reflexivity.
Defined.

(** X3. A turn of the loop raises exactly on the malformed items, whatever
    the mapping holds; and a response whose "items" are a list is processed
    without an exception exactly when none of its items is malformed. *)
Theorem loop_raises_iff_malformed :
  (∀ (results : dict) (x : json),
     (∃ e, Lookup.process_item results x = Raise e) ↔ malformed x = true)
  ∧ (∀ items : list json,
       (∃ results, Lookup.collect (response items) = Ok results)
       ↔ Forall (λ x, malformed x = false) items).
Proof.
  split.
  - intros results x. split; [|apply process_item_malformed].
    intros [e He]. destruct (malformed x) eqn:Hbad; [reflexivity|].
    destruct (process_item_not_malformed results x Hbad) as [r Hr].
    congruence.
  - intros items. rewrite collect_response. split.
    + intros [results Hok]. exact (for_each_Ok_not_malformed _ _ _ Hok).
    + apply for_each_not_malformed.
Qed.

Lemma loop_raises_iff_malformed_witness :
  ∃ e, Lookup.process_item {[ "World Day" := "first" ]}
         (JObj {[ "title" := JNum (QArith_base.Qmake 7 1);
                  "snippet" := JStr "seven" ]})
       = Raise e.
Proof.
  apply (proj2 (proj1 loop_raises_iff_malformed _ _)).
  vm_compute. reflexivity.
Defined.

(** X4. One malformed item anywhere in the list of items empties the
    result: the tool hands back the empty mapping, the entries of the other
    items are lost, and the last effect is the ERROR record of the
    exception. *)
Theorem malformed_item_empties_result (key cx : string)
    (provider : request → provider_outcome) (date_query : string)
    (tr : trace) (fields : gmap string json) (items : list json)
    (x : json) :
  provider (lookup_request key cx date_query) = Responded (JObj fields) →
  fields !! "items" = Some (JArr items) →
  x ∈ items →
  malformed x = true →
  ∃ tr' e,
    Lookup.get_special_day_info_from_external_source key cx provider
      date_query tr = (Ok ∅, tr')
    ∧ last tr'
      = Some (Log ERROR [Lit "Error fetching special day info via tool for '";
                         Str date_query; Lit "': "; Exc e]).
Proof.
  intros Hp Hitems Hin Hbad. rewrite tool_run, search_run. cbn zeta.
  rewrite Hp, (collect_items_array fields items Hitems).
  destruct (for_each_malformed items ∅ x Hin Hbad) as [e ->].
  eexists _, e. split; [reflexivity|]. apply last_snoc.
Qed.

Lemma malformed_item_empties_result_witness :
  ∃ tr' e,
    Lookup.get_special_day_info_from_external_source "key" "cx"
      (answering (response [item "World Day" "first"; JStr "stray"]))
      "May 21" [] = (Ok ∅, tr')
    ∧ last tr'
      = Some (Log ERROR [Lit "Error fetching special day info via tool for '";
                         Str "May 21"; Lit "': "; Exc e]).
Proof.
  apply (malformed_item_empties_result "key" "cx"
           (answering (response [item "World Day" "first"; JStr "stray"]))
           "May 21" []
           {[ "items" := JArr [item "World Day" "first"; JStr "stray"] ]}
           [item "World Day" "first"; JStr "stray"] (JStr "stray")).
  - reflexivity.
  - vm_compute. reflexivity.
  - right. left.
  - reflexivity.
Defined.

(** X5. The mapping collected from a response is the list of the entries
    of its accepted items read as a map, the first entry winning for a
    title: its keys are the accepted titles, and it has at most as many
    entries as the response has items. *)
Theorem result_is_first_entries (body : json) (results : dict) :
  Lookup.collect body = Ok results →
  results = list_to_map (entries (items_of body))
  ∧ dom results = list_to_set (entries (items_of body)).*1
  ∧ size results ≤ length (items_of body).
Proof.
  intros Hc. apply collect_Ok, for_each_closed in Hc.
  rewrite (left_id_L ∅ (∪)) in Hc. subst results.
  split; [reflexivity|]. split; [apply dom_list_to_map_L|].
  etransitivity; [apply size_list_to_map_le|apply length_entries].
Qed.

Lemma result_is_first_entries_witness :
  ({[ "World Day" := "first"; "OBSERVANCE list" := "hello" ]} : dict)
  = list_to_map (entries (items_of mixed_response))
  ∧ dom ({[ "World Day" := "first"; "OBSERVANCE list" := "hello" ]} : dict)
    = list_to_set (entries (items_of mixed_response)).*1
  ∧ size ({[ "World Day" := "first"; "OBSERVANCE list" := "hello" ]} : dict)
    ≤ length (items_of mixed_response).
Proof.
  apply (result_is_first_entries mixed_response).
  vm_compute. reflexivity.
Defined.

(** X6. The order of the items matters only among items with the same
    title: when the accepted titles of a response are all different, the
    items in any other order give the same mapping. *)
Theorem order_matters_only_for_equal_titles (items items' : list json)
    (results : dict) :
  items ≡ₚ items' →
  NoDup (entries items).*1 →
  Lookup.collect (response items) = Ok results →
  Lookup.collect (response items') = Ok results.
Proof.
  rewrite !collect_response. intros Hperm Hnodup Hok.
  pose proof (for_each_Ok_not_malformed _ _ _ Hok) as Hfine.
  rewrite Hperm in Hfine.
  destruct (for_each_not_malformed items' ∅ Hfine) as [results' Hok'].
  rewrite Hok'. f_equal.
  apply for_each_closed in Hok, Hok'.
  rewrite (left_id_L ∅ (∪)) in Hok, Hok'. subst results results'.
  symmetry. apply list_to_map_proper; [exact Hnodup|].
  apply entries_Permutation. exact Hperm.
Qed.

Lemma order_matters_only_for_equal_titles_witness :
  Lookup.collect
    (response [item "OBSERVANCE list" "hello "; item "Something else" "zzz";
               item "World Day" "  first... a"])
  = Ok {[ "World Day" := "first"; "OBSERVANCE list" := "hello" ]}.
Proof.
  apply (order_matters_only_for_equal_titles
           [item "Something else" "zzz"; item "World Day" "  first... a";
            item "OBSERVANCE list" "hello "]).
  - symmetry.
    exact (Permutation_cons_append
             [item "Something else" "zzz"; item "World Day" "  first... a"]
             (item "OBSERVANCE list" "hello ")).
  - apply (bool_decide_unpack _). vm_compute. exact I.
  - vm_compute. reflexivity.
Defined.

(** X7. The filter asks for a non-empty snippet, not for a non-empty
    description: an accepted item whose snippet has only whitespace before
    its first "..." is stored with the empty description. *)
Theorem empty_description_is_stored (results : dict)
    (fields : gmap string json) (t ws rest : string) :
  fields !! "title" = Some (JStr t) →
  fields !! "snippet" = Some (JStr (ws +:+ "..." +:+ rest)) →
  t ≠ "" →
  relevant t = true →
  all_space ws = true →
  results !! t = None →
  Lookup.process_item results (JObj fields) = Ok (<[t := ""]> results).
Proof.
  intros Ht Hs Hne Hrel Hws Hfree.
  assert (accepted (JObj fields) = Some (t, ws +:+ "..." +:+ rest)) as Hacc.
  { unfold accepted. rewrite Ht, Hs.
    apply String.eqb_neq in Hne. rewrite Hne. fold (relevant t).
    rewrite Hrel.
    destruct ws as [|c ws]; reflexivity. }
  rewrite (process_item_accepted results _ _ _ Hacc), Hfree.
  rewrite (before_first_after_space ws rest Hws), (strip_all_space ws Hws).
  reflexivity.
Qed.

Lemma empty_description_is_stored_witness :
  Lookup.process_item ∅ (item "World Day" " ... see the calendar")
  = Ok (<["World Day" := ""]> ∅).
Proof.
  apply (empty_description_is_stored ∅
           {[ "title" := JStr "World Day";
              "snippet" := JStr " ... see the calendar" ]}
           "World Day" " " " see the calendar").
  - vm_compute. reflexivity.
  - vm_compute. reflexivity.
  - discriminate.
  - vm_compute. reflexivity.
  - vm_compute. reflexivity.
  - vm_compute. reflexivity.
Defined.

(** X8. When the "items" field of the response is there but is not a
    list, the tool hands back the empty mapping. *)
Theorem items_not_a_list_gives_empty (key cx : string)
    (provider : request → provider_outcome) (date_query : string)
    (tr : trace) (fields : gmap string json) (v : json) :
  provider (lookup_request key cx date_query) = Responded (JObj fields) →
  fields !! "items" = Some v →
  (∀ xs, v ≠ JArr xs) →
  ∃ tr', Lookup.get_special_day_info_from_external_source key cx provider
           date_query tr = (Ok ∅, tr').
Proof.
  intros Hp Hitems Hnot. rewrite tool_run, search_run. cbn zeta.
  rewrite Hp.
  assert (Lookup.collect (JObj fields) = Ok ∅
          ∨ ∃ e, Lookup.collect (JObj fields) = Raise e) as [->|[e ->]];
    [|eauto..].
  unfold Lookup.collect. cbn. rewrite Hitems. cbn.
  destruct v as [| | |s|xs|m]; cbn; eauto.
  - rewrite for_each_texts. destruct (Py.chars s); eauto.
  - exfalso. exact (Hnot xs eq_refl).
  - rewrite for_each_texts. destruct ((map_to_list m).*1); eauto.
Qed.

Lemma items_not_a_list_gives_empty_witness :
  ∃ tr', Lookup.get_special_day_info_from_external_source "key" "cx"
           (answering (JObj {[ "items" := item "World Day" "first" ]}))
           "May 21" [] = (Ok ∅, tr').
Proof.
  apply (items_not_a_list_gives_empty "key" "cx"
           (answering (JObj {[ "items" := item "World Day" "first" ]}))
           "May 21" [] {[ "items" := item "World Day" "first" ]}
           (item "World Day" "first")).
  - reflexivity.
  - vm_compute. reflexivity.
  - intros xs. discriminate.
Defined.

(** ** [split] and [join] *)

Lemma split_from_skip (sep suf rest cur : string) :
  PyStr.split_from sep (String.length suf) cur (suf +:+ rest)
  = PyStr.split_from sep 0 cur rest.
Proof.
  induction suf as [|c suf IH]; [reflexivity|].
  rewrite append_cons. cbn [String.length split_from]. exact IH.
Qed.

Lemma concat_cons (sep x : string) (l : list string) :
  l ≠ [] → String.concat sep (x :: l) = x +:+ sep +:+ String.concat sep l.
Proof. destruct l; [congruence|reflexivity]. Qed.

Lemma split_from_join (sep : string) (n : nat) (s cur : string) :
  sep ≠ "" →
  String.length s ≤ n →
  String.concat sep (PyStr.split_from sep 0 cur s) = cur +:+ s.
Proof.
  intros Hsep. revert s cur.
  induction n as [|n IH]; intros s cur Hlen; rewrite split_from_0;
    destruct (String.prefix sep s) eqn:Hp.
  - destruct s; [|cbn in Hlen; lia]. destruct sep; [congruence|discriminate].
  - destruct s; [|cbn in Hlen; lia]. cbn. rewrite append_nil_r. reflexivity.
  - apply prefix_spec in Hp as [rest ->].
    destruct sep as [|c sep']; [congruence|].
    rewrite !append_cons. cbn [String.length].
    replace (S (String.length sep') - 1) with (String.length sep') by lia.
    rewrite split_from_skip.
    rewrite concat_cons.
    + rewrite (IH rest "").
      * rewrite <- !append_cons. reflexivity.
      * rewrite append_cons in Hlen. cbn in Hlen.
        rewrite length_append in Hlen. lia.
    + intros Hnil.
      pose proof (split_from_head (String c sep') "" rest) as Hhead.
      rewrite Hnil in Hhead. discriminate.
  - destruct s as [|c s]; [cbn; rewrite append_nil_r; reflexivity|].
    rewrite (IH s) by (cbn in Hlen; lia).
    rewrite append_assoc. reflexivity.
Qed.

(** X9. Joining the pieces of [s.split(sep)] with [sep] gives [s] back:
    in particular the pieces of a snippet cut at "..." lose nothing but
    the separators. *)
Theorem split_join_round_trip (sep s : string) :
  sep ≠ "" → String.concat sep (split sep s) = s.
Proof.
  intros Hsep. unfold split.
  exact (split_from_join sep (String.length s) s "" Hsep (Nat.le_refl _)).
Qed.

Lemma split_join_round_trip_witness :
  String.concat "..." (split "..." "A day for X... more text.... end")
  = "A day for X... more text.... end".
Proof.
  apply (split_join_round_trip "..." "A day for X... more text.... end").
  discriminate.
Defined.

(** * Further properties of the script *)

Lemma quiet_lookup_effect (key cx : string) (e : effect) :
  Script.agent_or_network e = false → lookup_effect key cx e.
Proof. destruct e; cbn; (discriminate || trivial). Qed.

Lemma on_event_effects (ev : event) (tr : trace) :
  ∃ r d, Script.on_event ev tr = (r, tr ++ d)
         ∧ Forall (λ e, Script.agent_or_network e = false) d.
Proof.
  unfold Script.on_event, Script.attr, logging_info, logging_error, print,
    emit, raise.
  unfold mbind, M_bind, mret, M_ret.
  destruct (String.eqb (ev_type ev) "tool_code");
    [destruct (ev_tool_code ev)|
     destruct (String.eqb (ev_type ev) "tool_response");
     [destruct (ev_tool_response ev)|
      destruct (String.eqb (ev_type ev) "agent_response");
      [destruct (ev_agent_response ev)|
       destruct (String.eqb (ev_type ev) "error");
       [destruct (ev_error ev)|]]]];
    cbn; rewrite <- ?(assoc_L (++)); cbn [app];
    try (eexists _, _; split; [reflexivity|]; repeat constructor).
  all: eexists _, []; rewrite app_nil_r; split; [reflexivity|constructor].
Qed.

(** The effects of one call of the registered tool: log records and the
    one request of the lookup. *)
Lemma tool_call_effects (environ : gmap string string)
    (provider : request → provider_outcome) (date_query : string)
    (tr : trace) :
  ∃ results d,
    Script.special_day_search_tool environ provider date_query tr
    = (Ok results, tr ++ d)
    ∧ Forall (lookup_effect (default "" (environ !! "GOOGLE_CSE_API_KEY"))
                (default "" (environ !! "GOOGLE_CSE_ID"))) d.
Proof.
  unfold Script.special_day_search_tool, Script.getenv.
  rewrite tool_run, search_run. cbn zeta.
  destruct (provider _) as [body|detail];
    [destruct (Lookup.collect body) as [results|e]|];
    rewrite <- !(assoc_L (++)); cbn [app];
    eexists _, _; (split; [reflexivity|]);
    repeat (constructor; [cbn; try (exists date_query; reflexivity); trivial|]);
    constructor.
Qed.

Lemma for_events_effects (environ : gmap string string)
    (provider : request → provider_outcome) (sts : list step) (e : ending)
    (tr : trace) :
  ∃ r d, Script.for_events environ provider sts e tr = (r, tr ++ d)
         ∧ Forall (lookup_effect (default "" (environ !! "GOOGLE_CSE_API_KEY"))
                     (default "" (environ !! "GOOGLE_CSE_ID"))) d.
Proof.
  revert tr. induction sts as [|[date_query|ev] sts IH]; intros tr.
  - destruct e; cbn; eexists _, []; rewrite app_nil_r;
      (split; [reflexivity|constructor]).
  - cbn [Script.for_events]. rewrite bind_run.
    destruct (tool_call_effects environ provider date_query tr)
      as [results [d [-> Hd]]].
    destruct (IH (tr ++ d)) as [r' [d' [-> Hd']]].
    eexists _, (d ++ d'). rewrite (assoc_L (++)).
    split; [reflexivity|]. apply Forall_app. split; assumption.
  - cbn [Script.for_events]. rewrite bind_run.
    destruct (on_event_effects ev tr) as [r [d [-> Hd]]].
    assert (Forall (lookup_effect
                      (default "" (environ !! "GOOGLE_CSE_API_KEY"))
                      (default "" (environ !! "GOOGLE_CSE_ID"))) d) as Hd2.
    { eapply Forall_impl; [exact Hd|]. intros x. apply quiet_lookup_effect. }
    destruct r as [[]|x].
    + eexists _, d. split; [reflexivity|exact Hd2].
    + destruct (IH (tr ++ d)) as [r' [d' [-> Hd']]].
      eexists _, (d ++ d'). rewrite (assoc_L (++)).
      split; [reflexivity|]. apply Forall_app. split; assumption.
    + eexists _, d. split; [reflexivity|exact Hd2].
Qed.

Lemma on_event_final (ev : event) :
  final_event ev = true → ∀ tr, ∃ tr', Script.on_event ev tr = (Ok true, tr').
Proof.
  unfold final_event, Script.on_event. intros Hfinal tr.
  destruct (String.eqb_spec (ev_type ev) "agent_response") as [Ha|Ha].
  - rewrite Ha. cbn.
    destruct (ev_agent_response ev); [cbn; eauto|].
    cbn in Hfinal. rewrite Ha in Hfinal. discriminate.
  - cbn in Hfinal.
    destruct (String.eqb_spec (ev_type ev) "error") as [He|He];
      [|discriminate].
    rewrite He. cbn.
    destruct (ev_error ev); [cbn; eauto|discriminate].
Qed.

Lemma on_event_unknown (ev : event) (tr : trace) :
  known_type (ev_type ev) = false → Script.on_event ev tr = (Ok false, tr).
Proof.
  unfold known_type, Script.on_event.
  intros [[[H1 H2]%orb_false_iff H3]%orb_false_iff H4]%orb_false_iff.
  rewrite H1, H2, H3, H4. reflexivity.
Qed.

(** The effects of the daily check: the banner, the logged prompt, the
    start of the runner, and after that log records, console lines and
    the requests of lookups. *)
Lemma run_daily_check_effects (environ : gmap string string)
    (strftime_today : string → string)
    (provider : request → provider_outcome)
    (runner_run : list piece → generator) (tr : trace) :
  ∃ rest,
    Script.run_daily_check environ strftime_today provider runner_run tr
    = (Ok (),
       tr ++ [Stdout [Lit (nl +:+ "--- Running ADK Special Day Agent for ");
                      Str (strftime_today "%B %d, %Y"); Lit " ---"];
              Log INFO (Lit "Agent's initial prompt: "
                        :: Script.initial_prompt strftime_today);
              RunnerStarted (Script.initial_prompt strftime_today)]
          ++ rest)
    ∧ Forall (lookup_effect (default "" (environ !! "GOOGLE_CSE_API_KEY"))
                (default "" (environ !! "GOOGLE_CSE_ID"))) rest.
Proof.
  rewrite run_daily_check_run. cbn zeta.
  unfold Script.run_loop. rewrite bind_run. unfold emit at 1.
  match goal with
  | |- context [Script.for_events ?env ?prov ?sts ?e ?t] =>
      destruct (for_events_effects env prov sts e t) as [r [d [-> Hd]]]
  end.
  destruct r as [[]|err].
  - exists d. split; [|exact Hd].
    rewrite <- !(assoc_L (++)). reflexivity.
  - eexists (d ++ [_; _]). split.
    + rewrite <- !(assoc_L (++)). reflexivity.
    + apply Forall_app. split; [exact Hd|repeat constructor].
Qed.

(** X10. A configuration value that is set to the empty string counts as
    missing: the process ends with status 1 after the one error record. *)
Theorem empty_configuration_value_ends_process
    (environ : gmap string string) (strftime_today : string → string)
    (provider : request → provider_outcome)
    (HarmCategory HarmBlockThreshold : gset string)
    (runner_run : list piece → generator) (is_main : bool) :
  environ !! "GOOGLE_CSE_API_KEY" = Some ""
  ∨ environ !! "GOOGLE_CSE_ID" = Some "" →
  Script.run_process environ strftime_today provider HarmCategory
    HarmBlockThreshold runner_run is_main
  = (Exited 1,
     [Log ERROR [Lit "Missing GOOGLE_CSE_API_KEY or GOOGLE_CSE_ID in your .env file. Please ensure these are set for the Google Custom Search tool to function."]]).
Proof.
  intros Hempty. apply run_process_missing.
  destruct Hempty as [-> | ->]; [reflexivity|apply andb_false_r].
Qed.

Lemma empty_configuration_value_ends_process_witness :
  Script.run_process
    {[ "GOOGLE_CSE_API_KEY" := "secret"; "GOOGLE_CSE_ID" := "" ]}
    (λ _, "May 21") (answering sample_response) library_HarmCategory
    library_HarmBlockThreshold
    (λ _, mkGenerator [Yields (final_response "Hello")] Exhausted)
    true
  = (Exited 1,
     [Log ERROR [Lit "Missing GOOGLE_CSE_API_KEY or GOOGLE_CSE_ID in your .env file. Please ensure these are set for the Google Custom Search tool to function."]]).
Proof.
  apply (empty_configuration_value_ends_process
           {[ "GOOGLE_CSE_API_KEY" := "secret"; "GOOGLE_CSE_ID" := "" ]}).
  right. vm_compute. reflexivity.
Defined.

(** X11. The loop ends at the first final response or error event that
    carries its payload: the steps that the runtime would take after it,
    and the way the generator would end, have no effect; an exception that
    the runtime would raise later never surfaces. *)
Theorem nothing_after_final_event_matters (environ : gmap string string)
    (provider : request → provider_outcome) (ev : event)
    (pre post post' : list step) (e e' : ending) (tr : trace) :
  final_event ev = true →
  Script.for_events environ provider (pre ++ Yields ev :: post) e tr
  = Script.for_events environ provider (pre ++ Yields ev :: post') e' tr.
Proof.
  intros Hfinal. revert tr.
  induction pre as [|[date_query|x] pre IH]; intros tr;
    cbn [app Script.for_events]; rewrite !bind_run.
  - destruct (on_event_final ev Hfinal tr) as [tr' ->]. reflexivity.
  - destruct (Script.special_day_search_tool _ _ _ _) as [[results|err] tr1];
      [apply IH|reflexivity].
  - destruct (Script.on_event x tr) as [[[]|err] tr1];
      [reflexivity| |reflexivity].
    apply IH.
Qed.

Lemma nothing_after_final_event_matters_witness :
  Script.for_events configured (answering sample_response)
    ([Calls "May 21";
      Yields (mkEvent "tool_code" (Some ("lookup", "May 21")) None None None)]
     ++ Yields (final_response "Happy World Day!")
        :: [Calls "May 22";
            Yields (mkEvent "tool_response" None None None None)])
    (Raises "quota exceeded") []
  = Script.for_events configured (answering sample_response)
      ([Calls "May 21";
        Yields (mkEvent "tool_code" (Some ("lookup", "May 21")) None None
                  None)]
       ++ Yields (final_response "Happy World Day!") :: [])
      Exhausted [].
Proof.
  apply (nothing_after_final_event_matters configured
           (answering sample_response)
           (final_response "Happy World Day!")).
  vm_compute. reflexivity.
Defined.

(** X12. An event whose type is none of "tool_code", "tool_response",
    "agent_response" and "error" is passed over without a trace: the loop
    runs as if the runtime had not yielded it. *)
Theorem unknown_events_are_skipped (environ : gmap string string)
    (provider : request → provider_outcome) (ev : event)
    (pre post : list step) (e : ending) (tr : trace) :
  known_type (ev_type ev) = false →
  Script.for_events environ provider (pre ++ Yields ev :: post) e tr
  = Script.for_events environ provider (pre ++ post) e tr.
Proof.
  intros Hunknown. revert tr.
  induction pre as [|[date_query|x] pre IH]; intros tr; cbn [app].
  - cbn [Script.for_events]. rewrite bind_run.
    rewrite (on_event_unknown ev tr Hunknown). reflexivity.
  - cbn [Script.for_events]. rewrite !bind_run.
    destruct (Script.special_day_search_tool _ _ _ _) as [[results|err] tr1];
      [apply IH|reflexivity].
  - cbn [Script.for_events]. rewrite !bind_run.
    destruct (Script.on_event x tr) as [[[]|err] tr1];
      [reflexivity| |reflexivity].
    apply IH.
Qed.

Lemma unknown_events_are_skipped_witness :
  Script.for_events configured (answering sample_response)
    ([Calls "May 21"] ++ Yields (mkEvent "thinking" None None None None)
        :: [Yields (final_response "Happy World Day!")])
    Exhausted []
  = Script.for_events configured (answering sample_response)
      ([Calls "May 21"] ++ [Yields (final_response "Happy World Day!")])
      Exhausted [].
Proof.
  apply (unknown_events_are_skipped configured (answering sample_response)
           (mkEvent "thinking" None None None None)).
  vm_compute. reflexivity.
Defined.

(** X13. [run_daily_check] prints its banner, logs the prompt, and starts
    the runner once with the prompt it has logged.  What follows are log
    records, console lines and the requests of the lookups that the
    runtime asks of the tool, each with the configured key and engine, the
    query text of a lookup and the limit 5: no tool is registered, no
    agent is created and no second run is started. *)
Theorem daily_check_starts_runner_once (environ : gmap string string)
    (strftime_today : string → string)
    (provider : request → provider_outcome)
    (runner_run : list piece → generator) (tr : trace) :
  ∃ rest,
    Script.run_daily_check environ strftime_today provider runner_run tr
    = (Ok (),
       tr ++ [Stdout [Lit (nl +:+ "--- Running ADK Special Day Agent for ");
                      Str (strftime_today "%B %d, %Y"); Lit " ---"];
              Log INFO (Lit "Agent's initial prompt: "
                        :: Script.initial_prompt strftime_today);
              RunnerStarted (Script.initial_prompt strftime_today)]
          ++ rest)
    ∧ Forall (lookup_effect (default "" (environ !! "GOOGLE_CSE_API_KEY"))
                (default "" (environ !! "GOOGLE_CSE_ID"))) rest.
Proof. apply run_daily_check_effects. Qed.

(** X14. With both configuration values set, the module registers the tool
    first.  Imported, it does nothing else and ends with status 0.  Run as
    the main program, it ends in one of two ways: the construction of the
    agent raises [AttributeError] on one of the names it reads from the
    enumerations, and the process ends by that exception with the
    registration as its only effect; or the agent is created for
    "gemini-pro", the daily check runs, and the process ends with status 0,
    its last effect the line that reports completion, whatever the agent
    runtime does. *)
Theorem configured_run_shape (environ : gmap string string)
    (strftime_today : string → string)
    (provider : request → provider_outcome)
    (HarmCategory HarmBlockThreshold : gset string)
    (runner_run : list piece → generator) :
  Script.is_set (environ !! "GOOGLE_CSE_API_KEY")
  && Script.is_set (environ !! "GOOGLE_CSE_ID") = true →
  Script.run_process environ strftime_today provider HarmCategory
    HarmBlockThreshold runner_run false
  = (Exited 0,
     [ToolRegistered "get_special_day_info_from_external_source"])
  ∧ ((∃ name,
        name ∈ names_read
        ∧ Script.run_process environ strftime_today provider HarmCategory
            HarmBlockThreshold runner_run true
          = (Crashed (AttributeError name),
             [ToolRegistered "get_special_day_info_from_external_source"]))
     ∨ (∃ mid,
          Script.run_process environ strftime_today provider HarmCategory
            HarmBlockThreshold runner_run true
          = (Exited 0,
             [ToolRegistered "get_special_day_info_from_external_source";
              AgentCreated "gemini-pro"]
             ++ mid
             ++ [Stdout [Lit (nl +:+ "--- ADK Agent execution complete. ---")]]))).
Proof.
  intros Hconf. rewrite !(run_process_configured _ _ _ _ _ _ _ Hconf).
  cbn zeta. split; [reflexivity|]. cbv iota.
  destruct (SpecialDayAgent_cases HarmCategory HarmBlockThreshold
              "gemini-pro"
              [ToolRegistered "get_special_day_info_from_external_source"])
    as [[name [Hname ->]]| ->].
  - left. exists name. split; [exact Hname|reflexivity].
  - right.
    destruct (run_daily_check_effects environ strftime_today provider
                runner_run
                ([ToolRegistered "get_special_day_info_from_external_source"]
                 ++ [AgentCreated "gemini-pro"])) as [rest [-> _]].
    eexists ([_; _; _] ++ rest). rewrite <- !(assoc_L (++)). reflexivity.
Qed.

Lemma configured_run_shape_witness :
  Script.run_process configured (λ _, "May 21") (answering sample_response)
    library_HarmCategory library_HarmBlockThreshold no_events false
  = (Exited 0,
     [ToolRegistered "get_special_day_info_from_external_source"])
  ∧ ((∃ name,
        name ∈ names_read
        ∧ Script.run_process configured (λ _, "May 21")
            (answering sample_response) library_HarmCategory
            library_HarmBlockThreshold no_events true
          = (Crashed (AttributeError name),
             [ToolRegistered "get_special_day_info_from_external_source"]))
     ∨ (∃ mid,
          Script.run_process configured (λ _, "May 21")
            (answering sample_response) library_HarmCategory
            library_HarmBlockThreshold no_events true
          = (Exited 0,
             [ToolRegistered "get_special_day_info_from_external_source";
              AgentCreated "gemini-pro"]
             ++ mid
             ++ [Stdout [Lit (nl +:+ "--- ADK Agent execution complete. ---")]]))).
Proof.
  apply (configured_run_shape configured).
  vm_compute. reflexivity.
Defined.

(** X15. [run_daily_check] lets no exception out.  It always returns; an
    exception raised while the steps of the runtime are consumed, by the
    runtime or by an event that lacks its payload, is logged with its
    traceback and printed after what the loop has done; an event of type
    "error" is logged at level ERROR and printed, and ends the loop. *)
Theorem daily_check_absorbs_errors (environ : gmap string string)
    (strftime_today : string → string)
    (provider : request → provider_outcome)
    (runner_run : list piece → generator) :
  (∀ tr, ∃ tr',
     Script.run_daily_check environ strftime_today provider runner_run tr
     = (Ok (), tr'))
  ∧ (∀ (tr tr1 : trace) (e : exn),
       Script.run_loop environ provider runner_run
         (Script.initial_prompt strftime_today)
         (tr ++ [Stdout [Lit (nl +:+ "--- Running ADK Special Day Agent for ");
                         Str (strftime_today "%B %d, %Y"); Lit " ---"];
                 Log INFO (Lit "Agent's initial prompt: "
                           :: Script.initial_prompt strftime_today)])
       = (Raise e, tr1) →
       Script.run_daily_check environ strftime_today provider runner_run tr
       = (Ok (),
          tr1 ++ [LogException [Lit "Unhandled error during ADK agent run."] e;
                  Stdout [Lit "An unhandled error occurred during ADK agent run: ";
                          Exc e]]))
  ∧ (∀ (ev : event) (message : string) (tr : trace),
       ev_type ev = "error" →
       ev_error ev = Some message →
       Script.on_event ev tr
       = (Ok true,
          tr ++ [Log ERROR [Lit "ADK Event: An error occurred during agent execution: ";
                            Str message];
                 Stdout [Lit "Agent encountered an error: "; Str message]])).
Proof.
  split; [|split].
  - intros tr. apply run_daily_check_returns.
  - intros tr tr1 e Hloop. rewrite run_daily_check_run. cbn zeta.
    rewrite Hloop. reflexivity.
  - intros ev message tr Htype Herror. unfold Script.on_event.
    rewrite Htype, Herror. cbn.
    unfold logging_error, print, emit, mbind, M_bind. cbn.
    rewrite <- (assoc_L (++)). reflexivity.
Qed.

Lemma daily_check_absorbs_errors_witness :
  ∃ tr1,
    Script.run_daily_check configured (λ _, "May 21")
      (answering sample_response)
      (λ _, mkGenerator
              [Calls "May 21";
               Yields (mkEvent "tool_code" (Some ("lookup", "May 21"))
                         None None None)]
              (Raises "quota exceeded")) []
    = (Ok (),
       tr1 ++ [LogException [Lit "Unhandled error during ADK agent run."]
                 (AgentRuntimeError "quota exceeded");
               Stdout [Lit "An unhandled error occurred during ADK agent run: ";
                       Exc (AgentRuntimeError "quota exceeded")]]).
Proof.
  eexists.
  apply (proj1 (proj2 (daily_check_absorbs_errors configured
           (λ _, "May 21") (answering sample_response)
           (λ _, mkGenerator
                   [Calls "May 21";
                    Yields (mkEvent "tool_code" (Some ("lookup", "May 21"))
                              None None None)]
                   (Raises "quota exceeded")))) []).
  vm_compute. reflexivity.
Defined.
